(** * argon / dv.js: report discovery and the streaming CSV extractor

    A shallow embedding of [src/dv.js] and the properties of its
    specification.  JavaScript strings are modelled as [string] (their
    characters as [ascii] code units), the [Set] of required dates as a
    [gset string], the result object of [getReports] as the [gmap] of its
    own properties, from date keys to [{url, file}] pairs, together with
    the prototype it may receive, thrown errors as the [Throw] constructor of
    [Result], and the calls the extractor makes on its base class as a trace
    of [Event]s. *)

From Stdlib Require Import ZArith QArith Ascii.
From stdpp Require Import gmap strings list fin_maps.

#[local] Set Warnings "-clear-no-such-hyp".


Local Open Scope char_scope.

(** ** JavaScript values and errors *)

(** The two kinds of value that [requiredDates.length === 0] compares. *)
Inductive JsValue : Type :=
  | JsUndefined
  | JsNumber (n : Z).

(** [a === b] on these values. *)
Definition strict_equals (a b : JsValue) : bool :=
  match a, b with
  | JsUndefined, JsUndefined => true
  | JsNumber x, JsNumber y => Z.eqb x y
  | _, _ => false
  end.

(** A call either returns a value or throws [Error(msg)]. *)
Inductive Result (A : Type) : Type :=
  | Ok (a : A)
  | Throw (msg : string).
Arguments Ok {A} a.
Arguments Throw {A} msg.

Definition chars (s : string) : list ascii := String.list_ascii_of_string s.
Definition str (l : list ascii) : string := String.string_of_list_ascii l.

(** ** DATE_PATTERN and convertDate *)

(** [\d] *)
Definition is_digit (c : ascii) : bool :=
  (48 <=? nat_of_ascii c)%nat && (nat_of_ascii c <=? 57)%nat.

Definition is_slash (c : ascii) : bool := Ascii.eqb c "/".

(** [DATE_PATTERN = /(\d{4})\/(\d{2})\/(\d{2})/], one character class per
    position. *)
Definition DATE_PATTERN : list (ascii -> bool) :=
  [is_digit; is_digit; is_digit; is_digit; is_slash;
   is_digit; is_digit; is_slash; is_digit; is_digit].

(** The pattern matches at the head of [l]. *)
Fixpoint matches_at (pat : list (ascii -> bool)) (l : list ascii) : bool :=
  match pat, l with
  | [], _ => true
  | p :: pat', c :: l' => p c && matches_at pat' l'
  | _ :: _, [] => false
  end.

(** The replacement ['$1-$2-$3'] for a match at the head of [l]. *)
Definition dashed (l : list ascii) : list ascii :=
  take 4 l ++ "-" :: take 2 (drop 5 l) ++ "-" :: take 2 (drop 8 l).

(** [line.replace(new RegExp(DATE_PATTERN, 'g'), '$1-$2-$3')]: scan from
    the left; a match is replaced and the scan resumes after it ([skip]
    counts the characters of the current match still to be passed over);
    any other character is copied. *)
Fixpoint replace_dates (skip : nat) (l : list ascii) : list ascii :=
  match l with
  | [] => []
  | c :: rest =>
      match skip with
      | S k => replace_dates k rest
      | O =>
          if matches_at DATE_PATTERN l
          then dashed l ++ replace_dates 9 rest
          else c :: replace_dates 0 rest
      end
  end.

Definition convertDate (line : string) : string :=
  str (replace_dates 0 (chars line)).

(** ** GCS_URL_PATTERN and extractFilename *)

(** The regular expressions of this file are sequences of literal
    characters and capturing groups of the form "dot star" (any run of
    characters other than line terminators). *)
Inductive Item : Type :=
  | Lit (c : ascii)
  | DotStar.

(** [.] matches any character but a line terminator. *)
Definition is_line_terminator (c : ascii) : bool :=
  Ascii.eqb c "010" || Ascii.eqb c "013".

Definition extend (c : ascii) (caps : list (list ascii)) : list (list ascii) :=
  match caps with
  | [] => []
  | g :: gs => (c :: g) :: gs
  end.

(** Backtracking match of [re] at the head of [s]; a group is greedy:
    it first tries to take one more character and gives it back only when
    the rest of the pattern then fails.  The result lists the captured
    groups in order. *)
Fixpoint match_here (re : list Item)
  : list ascii -> option (list (list ascii)) :=
  match re with
  | [] => fun _ => Some []
  | Lit c :: re' => fun s =>
      match s with
      | c' :: s' => if Ascii.eqb c c' then match_here re' s' else None
      | [] => None
      end
  | DotStar :: re' =>
      fix star (s : list ascii) : option (list (list ascii)) :=
        let give_back := option_map (cons []) (match_here re' s) in
        match s with
        | c :: s' =>
            if is_line_terminator c then give_back
            else match star s' with
                 | Some caps => Some (extend c caps)
                 | None => give_back
                 end
        | [] => give_back
        end
  end.

(** [re.exec(s)] for a pattern without flags: the first start index, from
    the left, at which the pattern matches. *)
Fixpoint exec (re : list Item) (s : list ascii) : option (list (list ascii)) :=
  match match_here re s with
  | Some caps => Some caps
  | None =>
      match s with
      | [] => None
      | _ :: s' => exec re s'
      end
  end.

(** The pattern of line 31: a group, [/], the group named [filename], four
    times [_] and a group, the literal [.csv?], and a last group. *)
Definition GCS_URL_PATTERN : list Item :=
  [DotStar; Lit "/"; DotStar; Lit "_"; DotStar; Lit "_"; DotStar; Lit "_";
   DotStar; Lit "_"; DotStar; Lit "."; Lit "c"; Lit "s"; Lit "v"; Lit "?";
   DotStar].

(** [match.groups.filename]: the second group. *)
Definition groups_filename (caps : list (list ascii)) : string :=
  str (nth 1 caps []).

Definition extractFilename (url : string) : Result string :=
  match exec GCS_URL_PATTERN (chars url) with
  | None => Throw "Unable to extract filename from URL."
  | Some caps =>
      if String.eqb (groups_filename caps) ""
      then Throw "Unable to extract filename from URL."
      else Ok (groups_filename caps)
  end.

(** ** The metadata listing *)

Definition REPORT_AVAILABLE : string := "DONE".

(** One entry of [response.data.reports], with the fields this file reads.
    [reportDataEndTimeMs] holds the value of
    [Number.parseInt(report.metadata.reportDataEndTimeMs)]: an integer,
    milliseconds since the epoch, or [None] for [NaN]. *)
Record Status : Type := { state : string }.
Record Metadata : Type := {
  status : Status;
  reportDataEndTimeMs : option Z;
  googleCloudStoragePath : string
}.
Record Key : Type := { reportId : string }.
Record Report : Type := { key : Key; metadata : Metadata }.

(** The answer of [client.request({url})]: [data] and [data.reports] may be
    missing. *)
Record Data : Type := { reports : option (list Report) }.
Record Response : Type := { data : option Data }.

Definition is_available (report : Report) : bool :=
  String.eqb (state (status (metadata report))) REPORT_AVAILABLE.

(** The guard shared by [getReportName] and [getReports]:
    [!response.data || !response.data.reports ||
     response.data.reports.length === 0]. *)
Definition listing (response : Response) : Result (list Report) :=
  match data response with
  | None => Throw "Invalid or empty API response."
  | Some d =>
      match reports d with
      | None => Throw "Invalid or empty API response."
      | Some l =>
          if (length l =? 0)%nat
          then Throw "Invalid or empty API response."
          else Ok l
      end
  end.

(** ** getReportName *)

(** The search loop of lines 65-71; [fileUrl] is the value the variable has
    when the loop is entered. *)
Fixpoint first_available (l : list Report) (fileUrl : string) : string :=
  match l with
  | [] => fileUrl
  | report :: rest =>
      if is_available report
      then googleCloudStoragePath (metadata report)
      else first_available rest fileUrl
  end.

Definition getReportName (response : Response) : Result string :=
  match listing response with
  | Throw msg => Throw msg
  | Ok l => extractFilename (first_available l "")
  end.

(** ** getReports *)

(** The value [{url, file}] stored in the result object. *)
Record Entry : Type := { url : string; file : string }.

(** [requiredDates] is a [Set] of date strings.  [s.delete(d)] removes [d]
    and returns whether it was present. *)
Definition Set_delete (d : string) (s : gset string) : bool * gset string :=
  (bool_decide (d ∈ s), s ∖ {[d]}).

(** Reading a property of a [Set]: the accessor [size] is the only one the
    prototype offers here; any other name, [length] included, reads as
    [undefined]. *)
Definition Set_get (s : gset string) (prop : string) : JsValue :=
  if String.eqb prop "size" then JsNumber (Z.of_nat (size s)) else JsUndefined.

(** [Duration.as('days')] of a duration of [ms] milliseconds, as an exact
    fraction (the JavaScript value is its floating-point rounding). *)
Definition as_days (ms : Z) : Q := ms # 86400000.

(** A [DateTime] of the date library: an instant, or the invalid value. *)
Inductive DateTime : Type :=
  | ValidDateTime (ts : Z)
  | InvalidDateTime.

(** [DateTime.fromMillis(n)]: instants beyond 8.64e15 milliseconds either
    side of the epoch are out of range, and so is [NaN]. *)
Definition MAX_DATE : Z := 8640000000000000.

Definition fromMillis (n : option Z) : DateTime :=
  match n with
  | Some ms =>
      if (ms <? - MAX_DATE)%Z || (MAX_DATE <? ms)%Z
      then InvalidDateTime
      else ValidDateTime ms
  | None => InvalidDateTime
  end.

(** [today.diff(other).as('days')] for a valid [today]: a number of days,
    or [None] for [NaN] when [other] is invalid. *)
Definition diff_as_days (today : Z) (other : DateTime) : option Q :=
  match other with
  | ValidDateTime ts => Some (as_days (today - ts))
  | InvalidDateTime => None
  end.

(** [x > lookbackDays], false when [x] is [NaN]. *)
Definition greater_than (x : option Q) (lookbackDays : Z) : bool :=
  match x with
  | Some days => negb (Qle_bool days (inject_Z lookbackDays))
  | None => false
  end.

(** [obj[key] = value] on an object made by [{}], for a value that is an
    object: [own] are the own properties of [obj] and [proto] is the
    object that has replaced its prototype, if any.  The name [__proto__]
    is the accessor of [Object.prototype], whose setter replaces the
    prototype; every other name becomes an own property. *)
Definition assign (key : string) (value : Entry)
    (own : gmap string Entry) (proto : option Entry)
  : gmap string Entry * option Entry :=
  if String.eqb key "__proto__" then (own, Some value)
  else (<[key := value]> own, proto).

(** The variables of the loop of lines 95-118; [st_reports] and
    [st_prototype] are the own properties and the replaced prototype of
    the object [reports]. *)
Record Scan : Type := {
  st_reports : gmap string Entry;
  st_prototype : option Entry;
  st_requiredDates : gset string;
  st_latestDate : option DateTime
}.

Section GetReports.

(** [toFormat(dateFormat)] on the valid [DateTime] of an instant, the
    formatting rule of the date library. *)
Variable toFormat : Z -> string -> string.

(** [today = DateTime.utc()], read once; the arguments of the call. *)
Variable today : Z.
Variable lookbackDays : Z.
Variable dateFormat : string.

(** [dt.toFormat(dateFormat)]: an invalid [DateTime] is written
    [Invalid DateTime] whatever the format. *)
Definition DateTime_toFormat (dt : DateTime) : string :=
  match dt with
  | ValidDateTime ts => toFormat ts dateFormat
  | InvalidDateTime => "Invalid DateTime"
  end.

(** Lines 97-109: the part of the loop body that looks at the report. *)
Definition visit (report : Report) (st : Scan) : Scan :=
  if is_available report then
    let reportTimestamp :=
      fromMillis (reportDataEndTimeMs (metadata report)) in
    let reportDate := DateTime_toFormat reportTimestamp in
    let '(deleted, remaining) := Set_delete reportDate (st_requiredDates st) in
    let '(own, proto) :=
      if deleted
      then assign reportDate
             {| url := googleCloudStoragePath (metadata report);
                file := reportId (key report) |}
             (st_reports st) (st_prototype st)
      else (st_reports st, st_prototype st) in
    {| st_reports := own;
       st_prototype := proto;
       st_requiredDates := remaining;
       st_latestDate := Some reportTimestamp |}
  else st.

(** Lines 111-117: the three [break] conditions, in order. *)
Definition stop (st : Scan) : bool :=
  if strict_equals (Set_get (st_requiredDates st) "length") (JsNumber 0)
  then true
  else
    match st_latestDate st with
    | None => true
    | Some latestDate =>
        greater_than (diff_as_days today latestDate) lookbackDays
    end.

(** The [for ... of] loop. *)
Fixpoint scan (l : list Report) (st : Scan) : Scan :=
  match l with
  | [] => st
  | report :: rest =>
      let st' := visit report st in
      if stop st' then st' else scan rest st'
  end.

(** The number of loop iterations [scan] runs. *)
Fixpoint scanned (l : list Report) (st : Scan) : nat :=
  match l with
  | [] => 0
  | report :: rest =>
      let st' := visit report st in
      if stop st' then 1 else S (scanned rest st')
  end.

Definition start (requiredDates : gset string) : Scan :=
  {| st_reports := ∅; st_prototype := None;
     st_requiredDates := requiredDates; st_latestDate := None |}.

(** [getReports] returns the object [reports]: the first component lists
    its own properties, the result map ([getReports_prototype] below gives
    the prototype it may have received); the second component is the
    content of the caller's [requiredDates] set after the call. *)
Definition getReports (response : Response) (requiredDates : gset string)
  : Result (gmap string Entry * gset string) :=
  match listing response with
  | Throw msg => Throw msg
  | Ok l =>
      let st := scan l (start requiredDates) in
      Ok (st_reports st, st_requiredDates st)
  end.


(** The number of records the call inspects. *)
Definition getReports_scanned (response : Response)
    (requiredDates : gset string) : nat :=
  match listing response with
  | Throw _ => 0
  | Ok l => scanned l (start requiredDates)
  end.

End GetReports.

(** ** CSVExtractor *)

Record CSVExtractor : Type := { csvFound : bool; summaryFound : bool }.

(** What [_transform] asks of its base class. *)
Inductive Event : Type :=
  | HandleFields (names : list string)   (* this.handleFields(names) *)
  | PushLine (line : string)             (* this.pushLine(line) *)
  | PushNull.                            (* this.push(null) *)

(** The state the constructor leaves. *)
Definition constructor : CSVExtractor :=
  {| csvFound := false; summaryFound := false |}.

(** [s.split(',')] on characters. *)
Fixpoint split_chars (sep : ascii) (l : list ascii) : list (list ascii) :=
  match l with
  | [] => [[]]
  | c :: rest =>
      if Ascii.eqb c sep then [] :: split_chars sep rest
      else extend c (split_chars sep rest)
  end.

Definition split (sep : ascii) (s : string) : list string :=
  map str (split_chars sep (chars s)).

(** [line.length === 0 || line[0] === ','] *)
Definition is_summary_marker (line : string) : bool :=
  (String.length line =? 0)%nat ||
  match chars line with
  | c :: _ => Ascii.eqb c ","
  | [] => false
  end.

Definition _transform (this : CSVExtractor) (chunk : string)
  : CSVExtractor * list Event :=
  if csvFound this then
    let line := chunk in
    if is_summary_marker line then
      ({| csvFound := false; summaryFound := true |}, [])
    else
      let convertedLine := convertDate line in
      (this, [PushLine convertedLine])
  else if summaryFound this then
    (this, [PushNull])
  else
    let names := split "," chunk in
    ({| csvFound := true; summaryFound := summaryFound this |},
     [HandleFields names]).

(** The stream calls [_transform] once per chunk, in order, each call after
    the previous one has called [done]. *)
Fixpoint feed (this : CSVExtractor) (chunks : list string)
  : CSVExtractor * list Event :=
  match chunks with
  | [] => (this, [])
  | chunk :: rest =>
      let '(this', out) := _transform this chunk in
      let '(this'', out') := feed this' rest in
      (this'', out ++ out')
  end.

(** ** Definitions used in the statements *)

(** An instance of the formatting rule, for concrete runs: the UTC calendar
    date of the instant, written [yyyy-MM-dd] (the days-to-civil
    computation of the proleptic Gregorian calendar); the format argument
    is not consulted. *)
Definition digit (n : Z) : ascii :=
  ascii_of_nat (48 + Z.to_nat (n mod 10)).

Definition isoDate (ms : Z) (fmt : string) : string :=
  let z := (ms / 86400000 + 719468)%Z in
  let era := (z / 146097)%Z in
  let doe := (z - era * 146097)%Z in
  let yoe := ((doe - doe / 1460 + doe / 36524 - doe / 146096) / 365)%Z in
  let doy := (doe - (365 * yoe + yoe / 4 - yoe / 100))%Z in
  let mp := ((5 * doy + 2) / 153)%Z in
  let d := (doy - (153 * mp + 2) / 5 + 1)%Z in
  let m := (if (mp <? 10)%Z then mp + 3 else mp - 9)%Z in
  let y := (yoe + era * 400 + (if (m <=? 2)%Z then 1 else 0))%Z in
  str [digit (y / 1000); digit (y / 100); digit (y / 10); digit y; "-";
       digit (m / 10); digit m; "-"; digit (d / 10); digit d].


(** A record (with an integer timestamp) and a response, written out. *)
Definition mkReport (st : string) (ms : Z) (path id : string) : Report :=
  {| key := {| reportId := id |};
     metadata := {| status := {| state := st |};
                    reportDataEndTimeMs := Some ms;
                    googleCloudStoragePath := path |} |}.

Definition response_of (l : list Report) : Response :=
  {| data := Some {| reports := Some l |} |}.

(** Three finished reports, newest first, whose data end at noon UTC of
    2021-06-03, -02 and -01.  The runs below take 2021-06-03 18:00 UTC
    (1622743200000) as the instant of the call. *)
Definition three_done : list Report :=
  [mkReport "DONE" 1622721600000 "u3" "f3";
   mkReport "DONE" 1622635200000 "u2" "f2";
   mkReport "DONE" 1622548800000 "u1" "f1"].

(** A report still in preparation ahead of a finished one. *)
Definition pending_then_done : list Report :=
  [mkReport "PROCESSING" 1622635200000 "" "f2";
   mkReport "DONE" 1622548800000 "u1" "f1"].

(** The date key of a record, and the value stored under it. *)
Definition date_of (toFormat : Z -> string -> string) (dateFormat : string)
    (report : Report) : string :=
  DateTime_toFormat toFormat dateFormat
    (fromMillis (reportDataEndTimeMs (metadata report))).

Definition entry_of (report : Report) : Entry :=
  {| url := googleCloudStoragePath (metadata report);
     file := reportId (key report) |}.

(** What the loop of [getReports] has found, against the set [R] the caller
    passed and the listing [L]: dates are only removed from the set, a
    removed date is the date of a DONE record of [L], the keys of the
    result are the removed dates other than [__proto__], and each key is
    mapped to the path and id of a DONE record of that date. *)
Definition found_in (toFormat : Z -> string -> string) (dateFormat : string)
    (R : gset string) (L : list Report) (st : Scan) : Prop :=
  st_requiredDates st ⊆ R ∧
  dom (st_reports st)
  = (R ∖ st_requiredDates st) ∖ {["__proto__"%string]} ∧
  (∀ d, d ∈ R → d ∉ st_requiredDates st →
     ∃ report, report ∈ L ∧
       state (status (metadata report)) = REPORT_AVAILABLE ∧
       date_of toFormat dateFormat report = d) ∧
  ∀ d e, st_reports st !! d = Some e →
    ∃ report, report ∈ L ∧
      state (status (metadata report)) = REPORT_AVAILABLE ∧
      date_of toFormat dateFormat report = d ∧
      e = entry_of report.

(** The three stream states of the specification, read off the two flags. *)
Inductive StreamState : Type :=
  | SCANNING_HEADER
  | STREAMING_DATA
  | SUMMARY_REACHED.

Definition stream_state (this : CSVExtractor) : StreamState :=
  if csvFound this then STREAMING_DATA
  else if summaryFound this then SUMMARY_REACHED
  else SCANNING_HEADER.

Global Instance StreamState_eq_dec : EqDecision StreamState.
Proof. solve_decision. Defined.

(** The stream state before the first chunk and after each chunk. *)
Fixpoint states (this : CSVExtractor) (chunks : list string)
  : list StreamState :=
  stream_state this ::
  match chunks with
  | [] => []
  | chunk :: rest => states (fst (_transform this chunk)) rest
  end.

(** The changes of state along a list of successive states. *)
Fixpoint transitions (l : list StreamState)
  : list (StreamState * StreamState) :=
  match l with
  | a :: (b :: _) as l' =>
      if decide (a = b) then transitions l' else (a, b) :: transitions l'
  | _ => []
  end.

Definition is_HandleFields (e : Event) : bool :=
  match e with HandleFields _ => true | _ => false end.

Definition is_PushLine (e : Event) : bool :=
  match e with PushLine _ => true | _ => false end.

(** The events produced for the chunks [post] once [seen] has been fed. *)
Definition events_after (seen post : list string) : list Event :=
  snd (feed (fst (feed constructor seen)) post).

(** The classifier-ordering property, for one chunk sequence: exactly one
    field-name event, placed before every data-line event, and no data-line
    event for the chunks that follow an empty or comma-prefixed chunk. *)
Definition classifier_ordering (chunks : list string) : Prop :=
  let out := snd (feed constructor chunks) in
  length (filter (λ e, is_HandleFields e = true) out) = 1 ∧
  (∀ i j names line,
     out !! i = Some (HandleFields names) →
     out !! j = Some (PushLine line) → i < j) ∧
  (∀ pre c post,
     chunks = pre ++ c :: post →
     is_summary_marker c = true →
     Forall (λ e, is_PushLine e = false) (events_after (pre ++ [c]) post)).

(** No slash-form date in [l] is directly followed by a digit. *)
Fixpoint guarded (l : list ascii) : bool :=
  match l with
  | [] => true
  | _ :: rest =>
      (if matches_at DATE_PATTERN l
       then match drop 10 l with
            | c :: _ => negb (is_digit c)
            | [] => true
            end
       else true) && guarded rest
  end.

(** The character classes of [DATE_PATTERN]. *)
Definition date_class (p : ascii -> bool) : Prop :=
  p = is_digit ∨ p = is_slash.

(** No slash-form date starts anywhere in [l]. *)
Fixpoint no_date (l : list ascii) : bool :=
  match l with
  | [] => true
  | _ :: rest => negb (matches_at DATE_PATTERN l) && no_date rest
  end.

(** Every character of [l'] is the character of [l] at the same place, or
    a dash where [l] has a slash. *)
Definition only_slashes_dashed (l l' : list ascii) : Prop :=
  Forall2 (λ c c', c' = c ∨ (c = "/" ∧ c' = "-")) l l'.

(** A run of characters a group can take. *)
Definition no_line_terminator (l : list ascii) : Prop :=
  Forall (λ c, is_line_terminator c = false) l.

(** What it means for [re] to match at the head of [s] with the groups
    [caps], whatever the order in which the alternatives are tried. *)
Inductive matches : list Item -> list ascii -> list (list ascii) -> Prop :=
  | matches_nil s : matches [] s []
  | matches_lit c re s caps :
      matches re s caps -> matches (Lit c :: re) (c :: s) caps
  | matches_star re g s caps :
      no_line_terminator g -> matches re s caps ->
      matches (DotStar :: re) (g ++ s) (g :: caps).



(** The character [x] does not occur in [l]. *)
Definition free_of (x : ascii) (l : list ascii) : Prop :=
  Forall (λ c, c ≠ x) l.

(** How often [x] occurs in [l], and as a literal of [re]. *)
Fixpoint occurrences (x : ascii) (l : list ascii) : nat :=
  match l with
  | [] => 0
  | c :: rest => (if Ascii.eqb c x then 1 else 0) + occurrences x rest
  end.

Fixpoint literals (x : ascii) (re : list Item) : nat :=
  match re with
  | [] => 0
  | Lit c :: re' => (if Ascii.eqb c x then 1 else 0) + literals x re'
  | DotStar :: re' => literals x re'
  end.

(** [fields.join(sep)] on characters, the way back from [split_chars]. *)
Fixpoint join_chars (sep : ascii) (fields : list (list ascii)) : list ascii :=
  match fields with
  | [] => []
  | f :: rest =>
      match rest with
      | [] => f
      | _ :: _ => f ++ sep :: join_chars sep rest
      end
  end.

(** The third [break] condition is false for [report]: its data end no
    more than [lookbackDays] days before [today], or its timestamp gives
    no valid [DateTime]. *)
Definition in_window (today lookbackDays : Z) (report : Report) : Prop :=
  match fromMillis (reportDataEndTimeMs (metadata report)) with
  | ValidDateTime ts => (today - ts ≤ lookbackDays * 86400000)%Z
  | InvalidDateTime => True
  end.

(** The date keys of the DONE records of [l]. *)
Fixpoint done_dates (toFormat : Z -> string -> string) (dateFormat : string)
    (l : list Report) : gset string :=
  match l with
  | [] => ∅
  | report :: rest =>
      if is_available report
      then {[date_of toFormat dateFormat report]}
           ∪ done_dates toFormat dateFormat rest
      else done_dates toFormat dateFormat rest
  end.

(** ** Runs on concrete inputs *)

Example convertDate_ex : convertDate "a,2021/06/01" = "a,2021-06-01"%string.
Proof. reflexivity. Qed.

Example extractFilename_ex :
  extractFilename "gs://bucket/dir/report_2021_06_01_x.csv?sig=abc"
  = Ok "report"%string.
Proof. vm_compute. reflexivity. Qed.

Example isoDate_ex : isoDate 1622548800000 "yyyy-MM-dd" = "2021-06-01"%string.
Proof. vm_compute. reflexivity. Qed.

Example states_ex :
  states constructor ["h"; "a"; ""; "t"]%string
  = [SCANNING_HEADER; STREAMING_DATA; STREAMING_DATA; SUMMARY_REACHED;
     SUMMARY_REACHED].
Proof. reflexivity. Qed.

(** ** convertDate *)

Lemma chars_str l : chars (str l) = l.
Proof. apply String.list_ascii_of_string_of_list_ascii. Qed.

Lemma str_chars s : str (chars s) = s.
Proof. apply String.string_of_list_ascii_of_string. Qed.

Lemma is_slash_true c : is_slash c = true → c = "/".
Proof. unfold is_slash. intros H. by apply Ascii.eqb_eq. Qed.

Lemma matches_at_cons p pat l :
  matches_at (p :: pat) l = true →
  ∃ c l', l = c :: l' ∧ p c = true ∧ matches_at pat l' = true.
Proof.
  destruct l as [|c l']; simpl; [discriminate|].
  intros [? ?]%andb_prop. eauto.
Qed.

Lemma matches_date_inv l :
  matches_at DATE_PATTERN l = true →
  ∃ y1 y2 y3 y4 m1 m2 d1 d2 rest,
    l = y1 :: y2 :: y3 :: y4 :: "/" :: m1 :: m2 :: "/" :: d1 :: d2 :: rest ∧
    Forall (λ c, is_digit c = true) [y1; y2; y3; y4; m1; m2; d1; d2].
Proof.
  unfold DATE_PATTERN. intros H.
  do 10 (apply matches_at_cons in H as (? & ? & -> & ? & H)).
  repeat match goal with
         | Hs : is_slash _ = true |- _ => apply is_slash_true in Hs; subst
         end.
  do 9 eexists. split; [reflexivity|]. repeat constructor; assumption.
Qed.

Lemma replace_dates_skip k l :
  replace_dates k l = replace_dates 0 (drop k l).
Proof.
  revert k. induction l as [|c rest IH]; intros [|k]; try reflexivity.
  simpl replace_dates at 1. rewrite IH. reflexivity.
Qed.

Lemma replace_dates_match l :
  matches_at DATE_PATTERN l = true →
  replace_dates 0 l = dashed l ++ replace_dates 0 (drop 10 l).
Proof.
  intros H. destruct l as [|c rest]; [discriminate|].
  cbn [replace_dates]. rewrite H, (replace_dates_skip 9). reflexivity.
Qed.

Lemma replace_dates_copy c rest :
  matches_at DATE_PATTERN (c :: rest) = false →
  replace_dates 0 (c :: rest) = c :: replace_dates 0 rest.
Proof. intros H. cbn [replace_dates]. rewrite H. reflexivity. Qed.

Lemma replace_dates_only_slashes l :
  only_slashes_dashed l (replace_dates 0 l).
Proof.
  unfold only_slashes_dashed.
  induction l as [l IH] using (induction_ltof1 _ (@length ascii)).
  unfold ltof in IH.
  destruct (matches_at DATE_PATTERN l) eqn:Hm.
  - rewrite (replace_dates_match _ Hm).
    apply matches_date_inv in Hm as (y1&y2&y3&y4&m1&m2&d1&d2&tl&->&_).
    cbn [dashed drop take app].
    repeat (constructor; [tauto|]).
    apply IH. simpl. lia.
  - destruct l as [|c rest]; [constructor|].
    rewrite (replace_dates_copy _ _ Hm). constructor; [tauto|].
    apply IH. simpl. lia.
Qed.

Lemma DATE_PATTERN_classes : Forall date_class DATE_PATTERN.
Proof.
  unfold DATE_PATTERN.
  repeat (apply Forall_cons; split; [unfold date_class; auto|]). constructor.
Qed.

Lemma matches_at_dashed_gen pat l l' :
  Forall date_class pat → only_slashes_dashed l l' →
  matches_at pat l' = true → matches_at pat l = true.
Proof.
  intros Hp. revert l l'.
  induction Hp as [|p pat Hc _ IH]; intros l l' HR; [done|].
  destruct HR as [|c c' l l' Hcc HR]; [done|].
  cbn [matches_at]. intros [Hh Ht]%andb_prop.
  rewrite (IH _ _ HR Ht), andb_true_r.
  destruct Hcc as [->|[-> ->]]; [done|].
  destruct Hc as [->| ->]; [discriminate|reflexivity].
Qed.

Lemma matches_at_dashed l l' :
  only_slashes_dashed l l' →
  matches_at DATE_PATTERN l' = true → matches_at DATE_PATTERN l = true.
Proof. apply matches_at_dashed_gen, DATE_PATTERN_classes. Qed.

Lemma no_match_at k p pat l :
  pat !! k = Some p → (∀ c, l !! k = Some c → p c = false) →
  matches_at pat l = false.
Proof.
  revert pat l. induction k as [|k IH]; intros [|q pat] [|c l] Hp Hl;
    try discriminate; try reflexivity; cbn [matches_at].
  - injection Hp as ->. rewrite (Hl c eq_refl). reflexivity.
  - rewrite (IH pat l Hp Hl). apply andb_false_r.
Qed.

Lemma no_date_fixed l : no_date l = true → replace_dates 0 l = l.
Proof.
  induction l as [|c rest IH]; [reflexivity|].
  cbn [no_date]. intros [Hh Ht]%andb_prop.
  apply negb_true_iff in Hh.
  rewrite (replace_dates_copy _ _ Hh), (IH Ht). reflexivity.
Qed.

Lemma guarded_tail c l : guarded (c :: l) = true → guarded l = true.
Proof. cbn [guarded]. by intros [_ ?]%andb_prop. Qed.

Lemma guarded_head l :
  guarded l = true → matches_at DATE_PATTERN l = true →
  ∀ c, drop 10 l !! 0 = Some c → is_digit c = false.
Proof.
  destruct l as [|c rest]; [discriminate|].
  cbn [guarded]. intros [Hh _]%andb_prop Hm x Hx. rewrite Hm in Hh.
  destruct (drop 10 (c :: rest)); [discriminate|].
  injection Hx as ->. by apply negb_true_iff.
Qed.

Lemma head_not_digit l l' :
  only_slashes_dashed l l' →
  (∀ c, l !! 0 = Some c → is_digit c = false) →
  ∀ c, l' !! 0 = Some c → is_digit c = false.
Proof.
  intros [|c c' ? ? [->|[-> ->]] _] H x Hx; [done| |];
    injection Hx as <-; [by apply H|reflexivity].
Qed.

(** The rewritten form of a date is not the start of another one, whatever
    follows it, as long as that is not a digit. *)
Lemma no_date_dashed y1 y2 y3 y4 m1 m2 d1 d2 o :
  (∀ c, o !! 0 = Some c → is_digit c = false) →
  no_date o = true →
  no_date (y1 :: y2 :: y3 :: y4 :: "-" :: m1 :: m2 :: "-" :: d1 :: d2 :: o)
  = true.
Proof.
  intros Ho Hn. cbn [no_date]. rewrite Hn.
  rewrite (no_match_at 4 is_slash), (no_match_at 3 is_digit),
    (no_match_at 2 is_digit), (no_match_at 1 is_digit),
    (no_match_at 0 is_digit), (no_match_at 2 is_digit _ (m1 :: _)),
    (no_match_at 1 is_digit _ (m2 :: _)),
    (no_match_at 0 is_digit _ ("-" :: d1 :: _)),
    (no_match_at 2 is_digit _ (d1 :: _)), (no_match_at 1 is_digit _ (d2 :: _));
    try reflexivity; try (intros c [= <-]; reflexivity); exact Ho.
Qed.

Lemma replace_dates_no_date l :
  guarded l = true → no_date (replace_dates 0 l) = true.
Proof.
  induction l as [l IH] using (induction_ltof1 _ (@length ascii)).
  unfold ltof in IH. intros Hg.
  destruct (matches_at DATE_PATTERN l) eqn:Hm.
  - rewrite (replace_dates_match _ Hm).
    pose proof (guarded_head _ Hg Hm) as Hnext.
    apply matches_date_inv in Hm as (y1&y2&y3&y4&m1&m2&d1&d2&tl&->&_).
    do 10 apply guarded_tail in Hg.
    change (drop 10 _) with tl in *.
    apply (no_date_dashed y1 y2 y3 y4 m1 m2 d1 d2).
    + exact (head_not_digit _ _ (replace_dates_only_slashes tl) Hnext).
    + apply IH; [simpl; lia|done].
  - destruct l as [|c rest]; [reflexivity|].
    rewrite (replace_dates_copy _ _ Hm). cbn [no_date].
    rewrite (IH rest ltac:(simpl; lia) (guarded_tail _ _ Hg)), andb_true_r.
    apply negb_true_iff.
    destruct (matches_at DATE_PATTERN (c :: replace_dates 0 rest)) eqn:Hm';
      [|done].
    rewrite <- Hm. symmetry.
    apply (matches_at_dashed (c :: rest) (c :: replace_dates 0 rest)); [|done].
    constructor; [tauto|]. apply replace_dates_only_slashes.
Qed.

(** C5, as stated, fails: on this line the first rewrite leaves the day
    digits of the rewritten date in front of [12/34/56], and together they
    form a date for the second rewrite. *)
Lemma C5_convertDate_not_idempotent :
  convertDate "2021/06/0112/34/56" = "2021-06-0112/34/56"%string ∧
  convertDate "2021-06-0112/34/56" = "2021-06-0112-34-56"%string ∧
  convertDate (convertDate "2021/06/0112/34/56")
  ≠ convertDate "2021/06/0112/34/56".
Proof. repeat split; vm_compute; (reflexivity || discriminate). Qed.

(** C5 (amended): [convertDate] changes nothing in a line but slashes into
    dashes, so a date already in dash form is never altered; a line in
    which no slash-form date starts is returned as it is; and applying
    [convertDate] twice gives the same as applying it once on every line in
    which no slash-form date is directly followed by a digit. *)
Theorem C5_convertDate_idempotent_guarded (line : string) :
  only_slashes_dashed (chars line) (chars (convertDate line)) ∧
  (no_date (chars line) = true → convertDate line = line) ∧
  (guarded (chars line) = true →
   convertDate (convertDate line) = convertDate line).
Proof.
  unfold convertDate. rewrite !chars_str. split; [|split].
  - apply replace_dates_only_slashes.
  - intros H. rewrite (no_date_fixed _ H). apply str_chars.
  - intros H. rewrite (no_date_fixed _ (replace_dates_no_date _ H)).
    reflexivity.
Qed.

Lemma C5_convertDate_idempotent_guarded_witness :
  (no_date (chars "a,2021-06-02") = true ∧
   convertDate "a,2021-06-02" = "a,2021-06-02"%string) ∧
  (guarded (chars "a,2021/06/01,2021-06-02") = true ∧
   convertDate (convertDate "a,2021/06/01,2021-06-02")
   = convertDate "a,2021/06/01,2021-06-02").
Proof.
  split; (split; [reflexivity|]).
  - apply (proj1 (proj2 (C5_convertDate_idempotent_guarded "a,2021-06-02"))).
    reflexivity.
  - apply (proj2 (proj2
      (C5_convertDate_idempotent_guarded "a,2021/06/01,2021-06-02"))).
    reflexivity.
Defined.

(** ** extractFilename *)

Lemma match_here_star_nil re :
  match_here (DotStar :: re) [] = option_map (cons []) (match_here re []).
Proof. reflexivity. Qed.

Lemma match_here_star_cons re c s :
  match_here (DotStar :: re) (c :: s) =
  if is_line_terminator c then option_map (cons []) (match_here re (c :: s))
  else match match_here (DotStar :: re) s with
       | Some caps => Some (extend c caps)
       | None => option_map (cons []) (match_here re (c :: s))
       end.
Proof. reflexivity. Qed.

Lemma match_here_lit c re s :
  match_here (Lit c :: re) s =
  match s with
  | c' :: s' => if Ascii.eqb c c' then match_here re s' else None
  | [] => None
  end.
Proof. reflexivity. Qed.

Lemma matches_give_back re s caps :
  matches re s caps → matches (DotStar :: re) s ([] :: caps).
Proof. intros H. apply (matches_star re [] s caps); [constructor|exact H]. Qed.

Lemma match_here_sound re s caps :
  match_here re s = Some caps → matches re s caps.
Proof.
  revert s caps. induction re as [|[c|] re IH]; intros s caps.
  - intros [= <-]. constructor.
  - rewrite match_here_lit. destruct s as [|c' s]; [discriminate|].
    destruct (Ascii.eqb_spec c c') as [<-|]; [|discriminate].
    intros H. constructor. by apply IH.
  - revert caps. induction s as [|c s IHs]; intros caps.
    + rewrite match_here_star_nil.
      destruct (match_here re []) as [caps'|] eqn:E; [|discriminate].
      intros [= <-]. by apply matches_give_back, IH.
    + rewrite match_here_star_cons.
      destruct (is_line_terminator c) eqn:Ec.
      * destruct (match_here re (c :: s)) as [caps'|] eqn:E; [|discriminate].
        intros [= <-]. by apply matches_give_back, IH.
      * destruct (match_here (DotStar :: re) s) as [caps0|] eqn:E0.
        -- intros [= <-]. specialize (IHs _ eq_refl).
           inversion IHs as [| |re' g s' caps' Hg Hm]; subst.
           cbn [extend].
           apply (matches_star re (c :: g) s' caps'); [|exact Hm].
           by constructor.
        -- destruct (match_here re (c :: s)) as [caps'|] eqn:E; [|discriminate].
           intros [= <-]. by apply matches_give_back, IH.
Qed.

Lemma match_here_star_complete re g s :
  no_line_terminator g → is_Some (match_here re s) →
  is_Some (match_here (DotStar :: re) (g ++ s)).
Proof.
  intros Hg [caps Hs]. induction Hg as [|c g Hc _ IH]; cbn [app].
  - destruct s as [|c s].
    + rewrite match_here_star_nil, Hs. by eexists.
    + rewrite match_here_star_cons, Hs.
      destruct (is_line_terminator c); [by eexists|].
      destruct (match_here (DotStar :: re) s); by eexists.
  - rewrite match_here_star_cons, Hc.
    destruct IH as [caps0 ->]. by eexists.
Qed.


Lemma exec_sound re s caps :
  exec re s = Some caps →
  ∃ before s', s = before ++ s' ∧ matches re s' caps.
Proof.
  induction s as [|c s IH]; cbn [exec].
  - destruct (match_here re []) eqn:E; [|discriminate].
    intros [= <-]. exists [], []. split; [done|]. by apply match_here_sound.
  - destruct (match_here re (c :: s)) eqn:E.
    + intros [= <-]. exists [], (c :: s). split; [done|].
      by apply match_here_sound.
    + intros (before & s' & -> & Hm)%IH. by exists (c :: before), s'.
Qed.






Lemma occurrences_app x l1 l2 :
  occurrences x (l1 ++ l2) = occurrences x l1 + occurrences x l2.
Proof. induction l1 as [|c l1 IH]; cbn [app occurrences]; lia. Qed.


Lemma matches_literals x re s caps :
  matches re s caps → literals x re ≤ occurrences x s.
Proof.
  induction 1 as [s|c re s caps _ IH|re g s caps _ _ IH];
    cbn [literals occurrences]; [lia|lia|].
  rewrite occurrences_app. lia.
Qed.










(** ** getReportName *)

Lemma is_available_false report :
  state (status (metadata report)) ≠ REPORT_AVAILABLE →
  is_available report = false.
Proof. intros H. unfold is_available. by apply String.eqb_neq. Qed.

Lemma is_available_true report :
  is_available report = true →
  state (status (metadata report)) = REPORT_AVAILABLE.
Proof. unfold is_available. apply String.eqb_eq. Qed.

Lemma listing_Ok response l :
  listing response = Ok l ↔
  data response = Some {| reports := Some l |} ∧ l ≠ [].
Proof.
  unfold listing. destruct response as [[[[[|r l']|]]|]]; cbn; split;
    try (intros [= <-]); try (intros [[= <-] ?]); try done.
Qed.

Lemma first_available_none l fileUrl :
  Forall (λ r, state (status (metadata r)) ≠ REPORT_AVAILABLE) l →
  first_available l fileUrl = fileUrl.
Proof.
  induction 1 as [|r l Hr _ IH]; [reflexivity|].
  cbn [first_available]. by rewrite (is_available_false _ Hr).
Qed.

(** C10: when the response holds no report whose state is DONE,
    [getReportName] throws: for a listing that passes the guard the search
    loop leaves [fileUrl] at the empty string, [extractFilename] cannot
    match it, and its error is the result of the call. *)
Theorem C10_getReportName_no_done_throws (response : Response) :
  (∀ d l, data response = Some d → reports d = Some l →
          Forall (λ r, state (status (metadata r)) ≠ REPORT_AVAILABLE) l) →
  (∃ msg, getReportName response = Throw msg) ∧
  (∀ l, listing response = Ok l →
        first_available l "" = ""%string ∧
        extractFilename "" = Throw "Unable to extract filename from URL." ∧
        getReportName response
        = Throw "Unable to extract filename from URL.").
Proof.
  intros Hno.
  assert (Hl : ∀ l, listing response = Ok l →
                    first_available l "" = ""%string).
  { intros l [Hd _]%listing_Ok. apply first_available_none.
    by apply (Hno _ l Hd). }
  unfold getReportName. split.
  - destruct (listing response) as [l|msg] eqn:E; [|by eexists].
    rewrite (Hl l eq_refl). by eexists.
  - intros l E. rewrite E, (Hl l E). done.
Qed.

(** C10 on a listing of two unfinished reports. *)
Lemma C10_getReportName_no_done_throws_witness :
  getReportName
    (response_of [mkReport "PROCESSING" 1622635200000 "" "f2";
                  mkReport "FAILED" 1622548800000 "" "f1"])
  = Throw "Unable to extract filename from URL.".
Proof.
  refine (proj2 (proj2 (proj2 (C10_getReportName_no_done_throws _ _) _ _))).
  - intros d l [= <-] [= <-]. repeat constructor; discriminate.
  - reflexivity.
Defined.

(** ** CSVExtractor *)

(** [_transform] by stream state. *)
Lemma transform_header this chunk :
  stream_state this = SCANNING_HEADER →
  stream_state (fst (_transform this chunk)) = STREAMING_DATA ∧
  snd (_transform this chunk) = [HandleFields (split "," chunk)].
Proof.
  destruct this as [[] []]; try discriminate. intros _. done.
Qed.

Lemma transform_data this chunk :
  stream_state this = STREAMING_DATA →
  if is_summary_marker chunk
  then stream_state (fst (_transform this chunk)) = SUMMARY_REACHED ∧
       snd (_transform this chunk) = []
  else stream_state (fst (_transform this chunk)) = STREAMING_DATA ∧
       snd (_transform this chunk) = [PushLine (convertDate chunk)].
Proof.
  destruct this as [[] s]; [|destruct s; discriminate]. intros _.
  unfold _transform. cbn [csvFound].
  destruct (is_summary_marker chunk); done.
Qed.

Lemma transform_summary this chunk :
  stream_state this = SUMMARY_REACHED →
  stream_state (fst (_transform this chunk)) = SUMMARY_REACHED ∧
  snd (_transform this chunk) = [PushNull].
Proof.
  destruct this as [[] []]; try discriminate. intros _. done.
Qed.

Lemma feed_cons this chunk rest :
  feed this (chunk :: rest) =
  (fst (feed (fst (_transform this chunk)) rest),
   snd (_transform this chunk)
   ++ snd (feed (fst (_transform this chunk)) rest)).
Proof.
  cbn [feed]. destruct (_transform this chunk) as [this' out].
  cbn [fst snd]. by destruct (feed this' rest).
Qed.

Lemma feed_app this a b :
  feed this (a ++ b) =
  (fst (feed (fst (feed this a)) b),
   snd (feed this a) ++ snd (feed (fst (feed this a)) b)).
Proof.
  revert this. induction a as [|chunk a IH]; intros this.
  - cbn [app feed fst snd]. by destruct (feed this b).
  - cbn [app]. rewrite !feed_cons, IH. cbn [fst snd].
    by rewrite app_assoc.
Qed.

(** Once the summary is reached, every chunk only ends the stream. *)
Lemma feed_summary this chunks :
  stream_state this = SUMMARY_REACHED →
  stream_state (fst (feed this chunks)) = SUMMARY_REACHED ∧
  Forall (λ e, e = PushNull) (snd (feed this chunks)).
Proof.
  revert this. induction chunks as [|chunk rest IH]; intros this Hs.
  - cbn. done.
  - rewrite feed_cons. cbn [fst snd].
    destruct (transform_summary this chunk Hs) as [Hs' ->].
    destruct (IH _ Hs') as [? ?]. split; [done|]. by constructor.
Qed.

(** After the header no further field-name event is produced, and the
    stream is streaming data or has reached the summary. *)
Lemma feed_data this chunks :
  stream_state this = STREAMING_DATA →
  stream_state (fst (feed this chunks)) ≠ SCANNING_HEADER ∧
  Forall (λ e, is_HandleFields e = false) (snd (feed this chunks)).
Proof.
  revert this. induction chunks as [|chunk rest IH]; intros this Hs.
  - cbn. by rewrite Hs.
  - rewrite feed_cons. cbn [fst snd].
    pose proof (transform_data this chunk Hs) as Ht.
    destruct (is_summary_marker chunk); destruct Ht as [Hs' ->].
    + destruct (feed_summary _ rest Hs') as [-> Hall]. split; [done|].
      cbn [app]. eapply Forall_impl; [exact Hall|]. by intros e ->.
    + destruct (IH _ Hs') as [? ?]. split; [done|]. by constructor.
Qed.

Lemma states_cons this chunk rest :
  states this (chunk :: rest)
  = stream_state this :: states (fst (_transform this chunk)) rest.
Proof. reflexivity. Qed.

Lemma states_head this chunks :
  ∃ tl, states this chunks = stream_state this :: tl.
Proof. destruct chunks; by eexists. Qed.

Lemma transitions_cons a b l :
  transitions (a :: b :: l) =
  if decide (a = b) then transitions (b :: l)
  else (a, b) :: transitions (b :: l).
Proof. reflexivity. Qed.

Lemma states_summary this chunks :
  stream_state this = SUMMARY_REACHED →
  transitions (states this chunks) = [].
Proof.
  revert this. induction chunks as [|chunk rest IH]; intros this Hs;
    [reflexivity|].
  destruct (transform_summary this chunk Hs) as [Hs' _].
  specialize (IH _ Hs'). rewrite states_cons.
  destruct (states_head (fst (_transform this chunk)) rest) as [tl Htl].
  rewrite Htl in *. rewrite transitions_cons, Hs, Hs', decide_True by done.
  rewrite Hs' in IH. exact IH.
Qed.

Lemma states_data this chunks :
  stream_state this = STREAMING_DATA →
  transitions (states this chunks) = [] ∨
  transitions (states this chunks) = [(STREAMING_DATA, SUMMARY_REACHED)].
Proof.
  revert this. induction chunks as [|chunk rest IH]; intros this Hs;
    [by left|].
  rewrite states_cons.
  destruct (states_head (fst (_transform this chunk)) rest) as [tl Htl].
  pose proof (transform_data this chunk Hs) as Ht.
  destruct (is_summary_marker chunk); destruct Ht as [Hs' _].
  - right. pose proof (states_summary _ rest Hs') as Hnil.
    rewrite Htl in *. rewrite transitions_cons, Hs, Hs', decide_False by done.
    rewrite Hs' in Hnil. rewrite Hnil. reflexivity.
  - specialize (IH _ Hs'). rewrite Htl in *.
    rewrite transitions_cons, Hs, Hs', decide_True by done.
    rewrite Hs' in IH. exact IH.
Qed.

(** C2, as stated, fails: the first chunk is taken as the header whatever it
    holds, so a data line does follow the comma-prefixed chunk [,x]; and on
    the empty chunk sequence there is no field-name event and no
    transition at all. *)
Lemma C2_marker_header_then_data :
  ¬ classifier_ordering [",x"; "a"]%string ∧
  ¬ classifier_ordering [] ∧
  snd (feed constructor [",x"; "a"]%string)
  = [HandleFields [""; "x"]%string; PushLine "a"] ∧
  snd (feed constructor []) = [] ∧
  transitions (states constructor []) = [].
Proof.
  split; [|split; [|done]].
  - intros (_ & _ & H).
    specialize (H [] ",x"%string ["a"%string] eq_refl eq_refl).
    by apply Forall_cons in H as [? _].
  - by intros (H & _).
Qed.

(** From a chunk that is empty or begins with a comma on, that chunk
    included, a stream that is past its header only signals the end. *)
Lemma feed_from_marker this c post :
  stream_state this ≠ SCANNING_HEADER →
  is_summary_marker c = true →
  Forall (λ e, e = PushNull) (snd (feed this (c :: post))).
Proof.
  intros Hthis Hc. rewrite feed_cons. cbn [snd].
  destruct (stream_state this) eqn:E; [done| |].
  - pose proof (transform_data this c E) as Ht. rewrite Hc in Ht.
    destruct Ht as [Hs ->]. cbn [app]. by apply feed_summary.
  - destruct (transform_summary this c E) as [Hs ->].
    constructor; [done|]. by apply feed_summary.
Qed.

(** C2 (amended): for every chunk sequence that is not empty, the
    field-name event occurs exactly once, as the first event and so before
    every data-line event; once a chunk other than the first is empty or
    begins with a comma, that chunk and the chunks after it produce
    end-of-stream signals only, never a data line; and the stream state
    changes from
    SCANNING_HEADER to STREAMING_DATA exactly once, at the first chunk, from
    STREAMING_DATA to SUMMARY_REACHED at most once, and not otherwise. *)
Theorem C2_classifier_ordering (c0 : string) (cs : list string) :
  (∃ rest,
     snd (feed constructor (c0 :: cs)) = HandleFields (split "," c0) :: rest ∧
     Forall (λ e, is_HandleFields e = false) rest) ∧
  (∀ pre c post,
     cs = pre ++ c :: post →
     is_summary_marker c = true →
     snd (feed constructor (c0 :: cs))
     = snd (feed constructor (c0 :: pre ++ [c]))
       ++ events_after (c0 :: pre ++ [c]) post ∧
     Forall (λ e, e = PushNull) (events_after (c0 :: pre ++ [c]) post) ∧
     snd (feed constructor (c0 :: cs))
     = snd (feed constructor (c0 :: pre))
       ++ events_after (c0 :: pre) (c :: post) ∧
     Forall (λ e, e = PushNull) (events_after (c0 :: pre) (c :: post))) ∧
  (transitions (states constructor (c0 :: cs))
   = [(SCANNING_HEADER, STREAMING_DATA)] ∨
   transitions (states constructor (c0 :: cs))
   = [(SCANNING_HEADER, STREAMING_DATA); (STREAMING_DATA, SUMMARY_REACHED)]).
Proof.
  destruct (transform_header constructor c0 eq_refl) as [Hs Hout].
  split; [|split].
  - rewrite feed_cons. cbn [snd]. rewrite Hout. eexists. split; [reflexivity|].
    by apply feed_data.
  - intros pre c post -> Hc. unfold events_after.
    assert (Hthis : stream_state (fst (feed constructor (c0 :: pre)))
                    ≠ SCANNING_HEADER).
    { rewrite feed_cons. cbn [fst]. by apply feed_data. }
    assert (Hsplit : c0 :: pre ++ c :: post = ((c0 :: pre) ++ [c]) ++ post).
    { cbn [app]. by rewrite <- app_assoc. }
    split; [|split; [|split]].
    + rewrite Hsplit, (feed_app _ ((c0 :: pre) ++ [c]) post). reflexivity.
    + apply feed_summary.
      change (c0 :: pre ++ [c]) with ((c0 :: pre) ++ [c]).
      rewrite feed_app. cbn [fst]. rewrite feed_cons. cbn [fst feed].
      set (this := fst (feed constructor (c0 :: pre))) in *.
      destruct (stream_state this) eqn:E; [done| |].
      * pose proof (transform_data this c E) as Ht. rewrite Hc in Ht. tauto.
      * by apply transform_summary.
    + change (c0 :: pre ++ c :: post) with ((c0 :: pre) ++ c :: post).
      by rewrite (feed_app _ (c0 :: pre) (c :: post)).
    + by apply feed_from_marker.
  - rewrite states_cons.
    destruct (states_head (fst (_transform constructor c0)) cs) as [tl Htl].
    pose proof (states_data _ cs Hs) as Hd. rewrite Htl in *.
    rewrite transitions_cons, Hs, decide_False by done.
    rewrite Hs in Hd. destruct Hd as [-> | ->]; [by left|by right].
Qed.

(** C2 (amended) on the chunks [h], [a], the empty chunk, [t], [u]. *)
Lemma C2_classifier_ordering_witness :
  Forall (λ e, e = PushNull)
    (events_after ["h"; "a"; ""]%string ["t"; "u"]%string) ∧
  Forall (λ e, e = PushNull)
    (events_after ["h"; "a"]%string [""; "t"; "u"]%string).
Proof.
  pose proof (proj1 (proj2
    (C2_classifier_ordering "h" ["a"; ""; "t"; "u"]%string))
    ["a"%string] ""%string ["t"; "u"]%string eq_refl eq_refl)
    as (_ & Hafter & _ & Hfrom).
  exact (conj Hafter Hfrom).
Defined.

(** C6: the chunks [name,val], [a,2021/06/01], the empty chunk and
    [total,5] give the field list [name; val] and the one data line
    [a,2021-06-01]; the empty chunk moves the stream to the summary state
    without output, and the chunk [total,5] that follows it produces the
    end-of-stream signal and no data line. *)
Theorem C6_example_chunks :
  feed constructor ["name,val"; "a,2021/06/01"; ""]%string
  = ({| csvFound := false; summaryFound := true |},
     [HandleFields ["name"; "val"]%string; PushLine "a,2021-06-01"]) ∧
  _transform {| csvFound := false; summaryFound := true |} "total,5"
  = ({| csvFound := false; summaryFound := true |}, [PushNull]) ∧
  snd (feed constructor ["name,val"; "a,2021/06/01"; ""; "total,5"]%string)
  = [HandleFields ["name"; "val"]%string; PushLine "a,2021-06-01"; PushNull].
Proof. repeat split; vm_compute; reflexivity. Qed.

(** ** getReports *)

(** The first [break] condition never holds: a [Set] has no [length]. *)
Lemma length_check_false (s : gset string) :
  strict_equals (Set_get s "length") (JsNumber 0) = false.
Proof. reflexivity. Qed.

Lemma as_days_gt (ms lookbackDays : Z) :
  negb (Qle_bool (as_days ms) (inject_Z lookbackDays))
  = (lookbackDays * 86400000 <? ms)%Z.
Proof.
  unfold as_days, Qle_bool, inject_Z. cbn [Qnum Qden].
  rewrite Z.mul_1_r, Z.ltb_antisym. reflexivity.
Qed.

Implicit Types (toFormat : Z → string → string) (today : Z).
Implicit Types (dateFormat : string).

Lemma stop_unfold today lookbackDays st :
  stop today lookbackDays st =
  match st_latestDate st with
  | None => true
  | Some (ValidDateTime ts) => (lookbackDays * 86400000 <? today - ts)%Z
  | Some InvalidDateTime => false
  end.
Proof.
  unfold stop. rewrite length_check_false.
  destruct (st_latestDate st) as [[ts|]|]; [apply as_days_gt|done|done].
Qed.

Lemma stop_mono today lookback1 lookback2 st :
  (lookback1 ≤ lookback2)%Z →
  stop today lookback2 st = true → stop today lookback1 st = true.
Proof.
  rewrite !stop_unfold. destruct (st_latestDate st) as [[ts|]|]; [|done|done].
  rewrite !Z.ltb_lt. lia.
Qed.

Lemma visit_skip toFormat dateFormat report st :
  state (status (metadata report)) ≠ REPORT_AVAILABLE →
  visit toFormat dateFormat report st = st.
Proof. intros H. unfold visit. by rewrite (is_available_false _ H). Qed.

(** What [visit] does to the own properties, to the set and to
    [latestDate]. *)
Lemma visit_reports toFormat dateFormat report st :
  st_reports (visit toFormat dateFormat report st)
  = if decide (is_available report = true ∧
               date_of toFormat dateFormat report ∈ st_requiredDates st ∧
               date_of toFormat dateFormat report ≠ "__proto__"%string)
    then <[date_of toFormat dateFormat report := entry_of report]>
           (st_reports st)
    else st_reports st.
Proof.
  unfold visit, Set_delete, assign, date_of, entry_of.
  destruct (is_available report); [|by rewrite decide_False by naive_solver].
  set (d := DateTime_toFormat _ _ _).
  case_bool_decide as Hin.
  - destruct (String.eqb_spec d "__proto__") as [Heq|Hne]; cbn.
    + by rewrite decide_False by naive_solver.
    + by rewrite decide_True.
  - cbn. by rewrite decide_False by naive_solver.
Qed.

Lemma visit_requiredDates toFormat dateFormat report st :
  st_requiredDates (visit toFormat dateFormat report st)
  = if is_available report
    then st_requiredDates st ∖ {[date_of toFormat dateFormat report]}
    else st_requiredDates st.
Proof.
  unfold visit, Set_delete, date_of.
  destruct (is_available report); [|done].
  by repeat case_match.
Qed.

Lemma visit_latestDate toFormat dateFormat report st :
  st_latestDate (visit toFormat dateFormat report st)
  = if is_available report
    then Some (fromMillis (reportDataEndTimeMs (metadata report)))
    else st_latestDate st.
Proof.
  unfold visit. destruct (is_available report); [|done].
  by repeat case_match.
Qed.

(** The result keys and the dates still required stay apart. *)
Lemma visit_disjoint toFormat dateFormat report st :
  dom (st_reports st) ## st_requiredDates st →
  dom (st_reports (visit toFormat dateFormat report st))
    ## st_requiredDates (visit toFormat dateFormat report st) ∧
  st_reports st ⊆ st_reports (visit toFormat dateFormat report st).
Proof.
  intros Hd. rewrite visit_reports, visit_requiredDates.
  case_decide as Hc.
  - destruct Hc as (-> & Hin & _).
    split; [rewrite dom_insert_L; set_solver|].
    apply insert_subseteq, not_elem_of_dom. set_solver.
  - split; [|done]. destruct (is_available report); set_solver.
Qed.

Lemma scan_disjoint toFormat today dateFormat lookbackDays l st :
  dom (st_reports st) ## st_requiredDates st →
  st_reports st
  ⊆ st_reports (scan toFormat today lookbackDays dateFormat l st).
Proof.
  revert st. induction l as [|report rest IH]; intros st Hd; [done|].
  cbn [scan].
  destruct (visit_disjoint toFormat dateFormat report st Hd) as [Hd' Hsub].
  destruct (stop _ _ _); [done|].
  etrans; [exact Hsub|]. by apply IH.
Qed.

Lemma scan_mono toFormat today dateFormat lookback1 lookback2 l st :
  (lookback1 ≤ lookback2)%Z →
  dom (st_reports st) ## st_requiredDates st →
  st_reports (scan toFormat today lookback1 dateFormat l st)
  ⊆ st_reports (scan toFormat today lookback2 dateFormat l st).
Proof.
  intros Hle. revert st.
  induction l as [|report rest IH]; intros st Hd; [done|].
  cbn [scan].
  destruct (visit_disjoint toFormat dateFormat report st Hd) as [Hd' _].
  destruct (stop today lookback2 _) eqn:E2.
  - by rewrite (stop_mono _ _ _ _ Hle E2).
  - destruct (stop today lookback1 _); [by apply scan_disjoint|by apply IH].
Qed.

(** A record that is not DONE, met after the loop has decided to go on,
    changes nothing. *)
Lemma scan_skip toFormat today dateFormat lookbackDays report rest st :
  state (status (metadata report)) ≠ REPORT_AVAILABLE →
  stop today lookbackDays st = false →
  scan toFormat today lookbackDays dateFormat (report :: rest) st
  = scan toFormat today lookbackDays dateFormat rest st.
Proof. intros Hr Hs. cbn [scan]. by rewrite (visit_skip _ _ _ _ Hr), Hs. Qed.

Lemma scan_insert toFormat today dateFormat lookbackDays pre report post st :
  pre ≠ [] →
  state (status (metadata report)) ≠ REPORT_AVAILABLE →
  scan toFormat today lookbackDays dateFormat (pre ++ report :: post) st
  = scan toFormat today lookbackDays dateFormat (pre ++ post) st.
Proof.
  intros Hpre Hr. revert st.
  induction pre as [|a pre IH]; intros st; [done|].
  cbn [app scan].
  destruct (stop today lookbackDays (visit toFormat dateFormat a st)) eqn:E;
    [reflexivity|].
  destruct pre as [|b pre]; [|by apply IH].
  cbn [app]. by apply scan_skip.
Qed.

Lemma visit_found_in toFormat dateFormat R L report st :
  report ∈ L → found_in toFormat dateFormat R L st →
  found_in toFormat dateFormat R L (visit toFormat dateFormat report st).
Proof.
  intros Hin (Hsub & Hdom & Hrem & Hent). unfold found_in.
  rewrite visit_reports, visit_requiredDates.
  destruct (is_available report) eqn:Ha;
    [|by rewrite decide_False by naive_solver].
  pose proof (is_available_true _ Ha) as Hdone.
  set (d := date_of toFormat dateFormat report) in *.
  split; [clear Hent Hrem Hdom; set_solver|]. split; [|split].
  - clear Hent Hrem. case_decide as Hc.
    + destruct Hc as (_ & Hd & Hne). rewrite dom_insert_L, Hdom.
      apply set_eq. intros x. destruct (decide (x = d)); set_solver.
    + rewrite Hdom. apply set_eq. intros x.
      destruct (decide (x = d)); [|set_solver]. subst x.
      destruct (decide (d ∈ st_requiredDates st)); [|set_solver].
      destruct (decide (d = "__proto__"%string)); [set_solver|].
      destruct Hc. done.
  - intros x Hx Hnot.
    destruct (decide (x ∈ st_requiredDates st)) as [Hreq|Hreq];
      [|by apply Hrem].
    exists report. split; [done|]. split; [done|].
    destruct (decide (d = x)) as [|Hne]; [done|]. exfalso. apply Hnot.
    apply elem_of_difference. split; [done|].
    rewrite elem_of_singleton. congruence.
  - intros x e. case_decide as Hc; [|apply Hent].
    rewrite lookup_insert. case_decide as Heq; [|apply Hent].
    intros [= <-]. exists report. by subst x.
Qed.

Lemma scan_found_in toFormat today dateFormat lookbackDays R L l st :
  l ⊆ L → found_in toFormat dateFormat R L st →
  found_in toFormat dateFormat R L
    (scan toFormat today lookbackDays dateFormat l st).
Proof.
  revert st. induction l as [|report rest IH]; intros st Hl Hf; [done|].
  cbn [scan].
  assert (found_in toFormat dateFormat R L
            (visit toFormat dateFormat report st)).
  { apply visit_found_in; [|done]. apply Hl. by left. }
  destruct (stop _ _ _); [done|]. apply IH; [|done].
  intros x Hx. apply Hl. by right.
Qed.

Lemma start_found_in toFormat dateFormat requiredDates L :
  found_in toFormat dateFormat requiredDates L (start requiredDates).
Proof.
  unfold found_in, start. cbn. rewrite dom_empty_L.
  split; [set_solver|]. split; [set_solver|]. split; [set_solver|].
  intros d e. by rewrite lookup_empty.
Qed.

Lemma getReports_Ok toFormat today lookbackDays dateFormat response
    requiredDates result remaining :
  getReports toFormat today lookbackDays dateFormat response requiredDates
  = Ok (result, remaining) →
  ∃ l, listing response = Ok l ∧
    result = st_reports
      (scan toFormat today lookbackDays dateFormat l (start requiredDates)) ∧
    remaining = st_requiredDates
      (scan toFormat today lookbackDays dateFormat l (start requiredDates)).
Proof.
  unfold getReports. destruct (listing response) as [l|]; [|discriminate].
  intros [= <- <-]. by exists l.
Qed.

Lemma listing_response_of l : l ≠ [] → listing (response_of l) = Ok l.
Proof. intros H. by apply listing_Ok. Qed.

(** C1, on the code: the test [requiredDates.length === 0] is false for
    every set; so with three DONE reports inside the lookback window and
    the newest date alone required, the set is empty after the first
    record, the stop check does not fire there, and the loop inspects all
    three records. *)
Theorem C1_scan_runs_past_drain :
  let first := mkReport "DONE" 1622721600000 "u3" "f3" in
  let after_first :=
    visit isoDate "yyyy-MM-dd" first (start {["2021-06-03"%string]}) in
  (∀ s : gset string,
     strict_equals (Set_get s "length") (JsNumber 0) = false) ∧
  st_requiredDates after_first = ∅ ∧
  stop 1622743200000 7 after_first = false ∧
  getReports_scanned isoDate 1622743200000 7 "yyyy-MM-dd"
    (response_of three_done) {["2021-06-03"%string]} = 3 ∧
  getReports isoDate 1622743200000 7 "yyyy-MM-dd"
    (response_of three_done) {["2021-06-03"%string]}
  = Ok ({["2021-06-03"%string := {| url := "u3"; file := "f3" |}]}, ∅).
Proof.
  split; [exact length_check_false|].
  repeat split; vm_compute; reflexivity.
Qed.

(** C3, as stated, fails: a report that is not DONE at the head of the
    listing stops the scan at once ([latestDate] is still [null]), so the
    result is empty; with that record removed the DONE report behind it is
    matched. *)
Lemma C3_pending_head_stops_scan :
  Forall (λ r, state (status (metadata r)) = REPORT_AVAILABLE)
    (filter (λ r, is_available r = true) pending_then_done) ∧
  getReports isoDate 1622743200000 7 "yyyy-MM-dd"
    (response_of pending_then_done) {["2021-06-01"%string]}
  = Ok (∅, {["2021-06-01"%string]}) ∧
  getReports isoDate 1622743200000 7 "yyyy-MM-dd"
    (response_of (filter (λ r, is_available r = true) pending_then_done))
    {["2021-06-01"%string]}
  = Ok ({["2021-06-01"%string := {| url := "u1"; file := "f1" |}]}, ∅) ∧
  getReports isoDate 1622743200000 7 "yyyy-MM-dd"
    (response_of pending_then_done) {["2021-06-01"%string]}
  ≠ getReports isoDate 1622743200000 7 "yyyy-MM-dd"
    (response_of (filter (λ r, is_available r = true) pending_then_done))
    {["2021-06-01"%string]}.
Proof.
  split; [repeat constructor|].
  assert (E1 : getReports isoDate 1622743200000 7 "yyyy-MM-dd"
                 (response_of pending_then_done) {["2021-06-01"%string]}
               = Ok (∅, {["2021-06-01"%string]}))
    by (vm_compute; reflexivity).
  assert (E2 : getReports isoDate 1622743200000 7 "yyyy-MM-dd"
                 (response_of
                    (filter (λ r, is_available r = true) pending_then_done))
                 {["2021-06-01"%string]}
               = Ok ({["2021-06-01"%string
                        := {| url := "u1"; file := "f1" |}]}, ∅))
    by (vm_compute; reflexivity).
  split; [exact E1|]. split; [exact E2|].
  rewrite E1, E2. intros H.
  pose proof (f_equal
    (λ r : Result (gmap string Entry * gset string),
       match r with
       | Ok (m, _) => m !! "2021-06-01"%string
       | Throw _ => None
       end) H) as Hm.
  vm_compute in Hm. discriminate Hm.
Qed.

(** C3 (amended): a record whose state is not DONE is skipped, it
    contributes nothing to matching or to the lookback cutoff; and
    inserting or removing such a record anywhere after the first record of
    the listing leaves what [getReports] returns, and the required-date set
    it leaves, unchanged. *)
Theorem C3_non_done_inert_after_head
    toFormat today lookbackDays dateFormat pre report post requiredDates :
  pre ≠ [] →
  state (status (metadata report)) ≠ REPORT_AVAILABLE →
  (∀ st, visit toFormat dateFormat report st = st) ∧
  getReports toFormat today lookbackDays dateFormat
    (response_of (pre ++ report :: post)) requiredDates
  = getReports toFormat today lookbackDays dateFormat
    (response_of (pre ++ post)) requiredDates.
Proof.
  intros Hpre Hr. split; [intros st; by apply visit_skip|].
  unfold getReports.
  rewrite !listing_response_of by (by destruct pre).
  by rewrite scan_insert.
Qed.

(** C3 (amended) with a pending record between two DONE records. *)
Lemma C3_non_done_inert_after_head_witness :
  getReports isoDate 1622743200000 7 "yyyy-MM-dd"
    (response_of
       ([mkReport "DONE" 1622635200000 "u2" "f2"]
        ++ mkReport "PROCESSING" 1622635200000 "" "p"
           :: [mkReport "DONE" 1622548800000 "u1" "f1"]))
    {["2021-06-01"%string]}
  = getReports isoDate 1622743200000 7 "yyyy-MM-dd"
    (response_of
       ([mkReport "DONE" 1622635200000 "u2" "f2"]
        ++ [mkReport "DONE" 1622548800000 "u1" "f1"]))
    {["2021-06-01"%string]}.
Proof.
  apply (C3_non_done_inert_after_head isoDate 1622743200000 7 "yyyy-MM-dd"
           [mkReport "DONE" 1622635200000 "u2" "f2"]
           (mkReport "PROCESSING" 1622635200000 "" "p"));
    discriminate.
Defined.

(** C4: for a fixed response, required-date set, date format and reference
    instant, the result map returned for a lookback window is contained in
    the one returned for any larger window: same keys kept, same values. *)
Theorem C4_lookback_monotone
    toFormat today dateFormat lookback1 lookback2 response requiredDates
    result1 remaining1 :
  (lookback1 ≤ lookback2)%Z →
  getReports toFormat today lookback1 dateFormat response requiredDates
  = Ok (result1, remaining1) →
  ∃ result2 remaining2,
    getReports toFormat today lookback2 dateFormat response requiredDates
    = Ok (result2, remaining2) ∧
    result1 ⊆ result2.
Proof.
  intros Hle (l & Hl & -> & ->)%getReports_Ok.
  unfold getReports. rewrite Hl. do 2 eexists. split; [reflexivity|].
  apply scan_mono; [exact Hle|]. cbn. rewrite dom_empty_L. set_solver.
Qed.

(** C4 for the windows of 0 and 7 days. *)
Lemma C4_lookback_monotone_witness :
  ∃ result2 remaining2,
    getReports isoDate 1622743200000 7 "yyyy-MM-dd"
      (response_of three_done) {["2021-06-01"%string]}
    = Ok (result2, remaining2) ∧
    (∅ : gmap string Entry) ⊆ result2.
Proof.
  apply (C4_lookback_monotone isoDate 1622743200000 "yyyy-MM-dd" 0 7
           (response_of three_done) {["2021-06-01"%string]}
           ∅ {["2021-06-01"%string]}).
  - lia.
  - vm_compute. reflexivity.
Defined.

(** C7: on a listing (one that passes the guard, so with a first record)
    none of whose records is DONE, [getReports] returns the empty result
    map, leaves the required dates as they were, and inspects the first
    record only. *)
Theorem C7_no_done_stops_at_first
    toFormat today lookbackDays dateFormat response l requiredDates :
  data response = Some {| reports := Some l |} →
  l ≠ [] →
  Forall (λ r, state (status (metadata r)) ≠ REPORT_AVAILABLE) l →
  getReports toFormat today lookbackDays dateFormat response requiredDates
  = Ok (∅, requiredDates) ∧
  getReports_scanned toFormat today lookbackDays dateFormat response
    requiredDates = 1.
Proof.
  intros Hd Hne Hall.
  assert (Hl : listing response = Ok l) by by apply listing_Ok.
  unfold getReports, getReports_scanned. rewrite Hl.
  destruct l as [|report rest]; [done|].
  apply Forall_cons in Hall as [Hr _].
  cbn [scan scanned]. rewrite (visit_skip toFormat dateFormat report _ Hr).
  rewrite stop_unfold. cbn. done.
Qed.

(** C7 on a listing of two unfinished reports. *)
Lemma C7_no_done_stops_at_first_witness :
  getReports isoDate 1622743200000 7 "yyyy-MM-dd"
    (response_of [mkReport "PROCESSING" 1622635200000 "" "f2";
                  mkReport "FAILED" 1622548800000 "" "f1"])
    {["2021-06-01"%string]}
  = Ok (∅, {["2021-06-01"%string]}) ∧
  getReports_scanned isoDate 1622743200000 7 "yyyy-MM-dd"
    (response_of [mkReport "PROCESSING" 1622635200000 "" "f2";
                  mkReport "FAILED" 1622548800000 "" "f1"])
    {["2021-06-01"%string]} = 1.
Proof.
  apply (C7_no_done_stops_at_first isoDate 1622743200000 7 "yyyy-MM-dd" _
           [mkReport "PROCESSING" 1622635200000 "" "f2";
            mkReport "FAILED" 1622548800000 "" "f1"]).
  - reflexivity.
  - discriminate.
  - repeat constructor; discriminate.
Defined.




(** ** Further facts: convertDate and split *)

Lemma extend_cons c caps :
  caps ≠ [] → ∃ g gs, caps = g :: gs ∧ extend c caps = (c :: g) :: gs.
Proof. destruct caps as [|g gs]; [done|]. by exists g, gs. Qed.

Lemma split_chars_nonempty sep l : split_chars sep l ≠ [].
Proof.
  induction l as [|c l IH]; cbn [split_chars]; [done|].
  destruct (Ascii.eqb c sep); [done|].
  destruct (split_chars sep l); [done|]. done.
Qed.

Lemma join_chars_cons sep f g rest :
  join_chars sep (f :: g :: rest) = f ++ sep :: join_chars sep (g :: rest).
Proof. reflexivity. Qed.

Lemma join_split_chars sep l : join_chars sep (split_chars sep l) = l.
Proof.
  induction l as [|c l IH]; [reflexivity|]. cbn [split_chars].
  destruct (Ascii.eqb_spec c sep) as [->|Hne].
  - destruct (split_chars sep l) as [|g gs] eqn:E;
      [by destruct (split_chars_nonempty sep l)|].
    rewrite join_chars_cons, IH. reflexivity.
  - destruct (split_chars sep l) as [|g gs] eqn:E;
      [by destruct (split_chars_nonempty sep l)|].
    cbn [extend]. rewrite <- IH. by destruct gs.
Qed.

Lemma split_chars_length sep l :
  length (split_chars sep l) = S (occurrences sep l).
Proof.
  induction l as [|c l IH]; [reflexivity|]. cbn [split_chars occurrences].
  destruct (Ascii.eqb c sep); cbn [length]; [by rewrite IH|].
  destruct (split_chars sep l); [discriminate IH|]. exact IH.
Qed.

Lemma split_chars_free sep l : Forall (free_of sep) (split_chars sep l).
Proof.
  induction l as [|c l IH]; cbn [split_chars].
  - repeat constructor.
  - destruct (Ascii.eqb_spec c sep) as [->|Hne].
    + constructor; [constructor|exact IH].
    + destruct IH as [|g gs Hg Hgs]; [constructor|].
      cbn [extend]. constructor; [by constructor|exact Hgs].
Qed.

Lemma split_join_chars sep fields :
  fields ≠ [] → Forall (free_of sep) fields →
  split_chars sep (join_chars sep fields) = fields.
Proof.
  intros Hne Hfree. induction Hfree as [|f rest Hf Hrest IH]; [done|].
  clear Hne. destruct rest as [|g rest].
  - cbn [join_chars]. clear IH Hrest.
    induction Hf as [|c f Hc _ IHf]; [reflexivity|]. cbn [split_chars].
    destruct (Ascii.eqb_spec c sep); [done|]. by rewrite IHf.
  - rewrite join_chars_cons. specialize (IH ltac:(done)).
    induction Hf as [|c f Hc _ IHf]; cbn [app split_chars].
    + by rewrite Ascii.eqb_refl, IH.
    + destruct (Ascii.eqb_spec c sep); [done|]. by rewrite IHf.
Qed.

Lemma length_chars s : length (chars s) = String.length s.
Proof. induction s as [|c s IH]; [reflexivity|]. cbn. by rewrite <- IH. Qed.

Lemma matches_at_comma pat a b :
  Forall date_class pat → pat ≠ [] →
  matches_at pat (a ++ "," :: b) = matches_at pat a.
Proof.
  intros Hp. revert a. induction Hp as [|p pat Hc Hp IH]; intros a _; [done|].
  destruct a as [|c a]; cbn [app matches_at].
  - destruct Hc as [-> | ->]; reflexivity.
  - destruct pat as [|q pat]; [reflexivity|]. by rewrite IH.
Qed.

Lemma replace_dates_comma a b :
  replace_dates 0 (a ++ "," :: b)
  = replace_dates 0 a ++ "," :: replace_dates 0 b.
Proof.
  induction a as [a IH] using (induction_ltof1 _ (@length ascii)).
  unfold ltof in IH.
  pose proof (matches_at_comma DATE_PATTERN a b DATE_PATTERN_classes
                ltac:(done)) as Hsame.
  destruct (matches_at DATE_PATTERN a) eqn:Hm.
  - rewrite (replace_dates_match _ Hsame), (replace_dates_match _ Hm).
    apply matches_date_inv in Hm as (y1&y2&y3&y4&m1&m2&d1&d2&tl&->&_).
    cbn [app dashed drop take]. do 10 f_equal.
    apply IH. cbn [length]. lia.
  - destruct a as [|c a]; cbn [app] in *.
    + by rewrite (replace_dates_copy _ _ Hsame).
    + rewrite (replace_dates_copy _ _ Hsame), (replace_dates_copy _ _ Hm).
      cbn [app]. f_equal. apply IH. cbn [length]. lia.
Qed.

Lemma replace_dates_join fields :
  replace_dates 0 (join_chars "," fields)
  = join_chars "," (map (replace_dates 0) fields).
Proof.
  induction fields as [|f rest IH]; [reflexivity|].
  destruct rest as [|g rest]; [reflexivity|].
  rewrite join_chars_cons, replace_dates_comma, IH. reflexivity.
Qed.

(** X1: [convertDate] returns a line of the same length. *)
Theorem convertDate_length (line : string) :
  String.length (convertDate line) = String.length line.
Proof.
  rewrite <- !length_chars. unfold convertDate. rewrite chars_str.
  symmetry. exact (Forall2_length _ _ _ (replace_dates_only_slashes _)).
Qed.

(** X2: [convertDate] works field by field: converting a line gives the
    same as splitting it at the commas, converting each field and joining
    the results with commas again; a date is never recognised across a
    comma. *)
Theorem convertDate_by_field (line : string) :
  convertDate line
  = str (join_chars "," (map chars (map convertDate (split "," line)))).
Proof.
  unfold convertDate at 1, split.
  rewrite <- (join_split_chars "," (chars line)) at 1.
  rewrite replace_dates_join. f_equal. f_equal.
  rewrite !map_map. apply map_ext. intros f.
  unfold convertDate. by rewrite !chars_str.
Qed.

(** X4: joining the fields of [s.split(sep)] with [sep] gives [s] back;
    there is one field more than there are separators in [s], and no field
    contains the separator. *)
Theorem split_join_round_trip (sep : ascii) (s : string) :
  str (join_chars sep (map chars (split sep s))) = s ∧
  length (split sep s) = S (occurrences sep (chars s)) ∧
  Forall (λ field, free_of sep (chars field)) (split sep s).
Proof.
  unfold split. split; [|split].
  - rewrite map_map.
    rewrite (map_ext (λ x, chars (str x)) id) by apply chars_str.
    rewrite map_id, join_split_chars. apply str_chars.
  - rewrite length_map. apply split_chars_length.
  - apply Forall_map. eapply Forall_impl; [apply split_chars_free|].
    intros f Hf. cbn. by rewrite chars_str.
Qed.

(** X5: splitting the join of a non-empty list of separator-free fields
    gives those fields back. *)
Theorem split_of_joined_fields (sep : ascii) (fields : list (list ascii)) :
  fields ≠ [] → Forall (free_of sep) fields →
  split sep (str (join_chars sep fields)) = map str fields.
Proof.
  intros Hne Hfree. unfold split. rewrite chars_str.
  by rewrite split_join_chars.
Qed.

(** [split_of_joined_fields] on a concrete input. *)
Lemma split_of_joined_fields_witness :
  split "," (str (join_chars "," [chars "name"; []; chars "val"]))
  = map str [chars "name"; []; chars "val"].
Proof.
  apply (split_of_joined_fields "," [chars "name"; []; chars "val"]).
  - discriminate.
  - repeat constructor; discriminate.
Defined.

(** X3: a slash-form date at the head of a line is rewritten with dashes
    and the rest of the line is converted on its own. *)
Theorem convertDate_leading_date (y1 y2 y3 y4 m1 m2 d1 d2 : ascii)
    (rest : list ascii) :
  Forall (λ c, is_digit c = true) [y1; y2; y3; y4; m1; m2; d1; d2] →
  convertDate
    (str (y1 :: y2 :: y3 :: y4 :: "/" :: m1 :: m2 :: "/" :: d1 :: d2 :: rest))
  = str (y1 :: y2 :: y3 :: y4 :: "-" :: m1 :: m2 :: "-" :: d1 :: d2
         :: chars (convertDate (str rest))).
Proof.
  intros Hd. unfold convertDate. rewrite !chars_str.
  rewrite replace_dates_match; [reflexivity|].
  repeat match goal with
         | H : Forall _ (_ :: _) |- _ => apply Forall_cons in H as [? H]
         end.
  cbn [DATE_PATTERN matches_at].
  repeat match goal with H : is_digit _ = true |- _ => rewrite H; clear H end.
  reflexivity.
Qed.

(** [convertDate_leading_date] on a concrete input. *)
Lemma convertDate_leading_date_witness :
  convertDate (str (chars "2021/06/01" ++ chars ",x,2021/6/1"))
  = str (chars "2021-06-01" ++ chars (convertDate (str (chars ",x,2021/6/1")))).
Proof.
  apply (convertDate_leading_date "2" "0" "2" "1" "0" "6" "0" "1").
  repeat constructor.
Defined.


(** ** Further facts: extractFilename *)

(** What a greedy group returns: the run it took, the match of the rest
    after it, and no match of the rest after any longer run. *)
Lemma match_here_star_maximal re s caps :
  match_here (DotStar :: re) s = Some caps →
  ∃ g caps' t,
    caps = g :: caps' ∧ s = g ++ t ∧ no_line_terminator g ∧
    match_here re t = Some caps' ∧
    ∀ h t', h ≠ [] → t = h ++ t' → no_line_terminator h →
            match_here re t' = None.
Proof.
  revert caps. induction s as [|c s IH]; intros caps.
  - rewrite match_here_star_nil.
    destruct (match_here re []) as [caps'|] eqn:E; [|discriminate].
    intros [= <-]. exists [], caps', []. repeat split; [constructor|done|].
    intros h t' Hh Heq. by destruct h.
  - rewrite match_here_star_cons.
    assert (Hback : ∀ caps',
              match_here re (c :: s) = Some caps' →
              (is_line_terminator c = true ∨
               match_here (DotStar :: re) s = None) →
              ∃ g caps'' t,
                [] :: caps' = g :: caps'' ∧ c :: s = g ++ t ∧
                no_line_terminator g ∧ match_here re t = Some caps'' ∧
                ∀ h t', h ≠ [] → t = h ++ t' → no_line_terminator h →
                        match_here re t' = None).
    { intros caps' E Hwhy. exists [], caps', (c :: s).
      repeat split; [constructor|done|].
      intros h t' Hh Heq Hnl. destruct h as [|c' h]; [done|].
      injection Heq as <- ->. apply Forall_cons in Hnl as [Hc Hnl].
      destruct Hwhy as [Hterm|Hnone]; [congruence|].
      destruct (match_here re t') as [x|] eqn:Et; [|done].
      destruct (match_here_star_complete re h t' Hnl) as [y Hy]; [by eexists|].
      congruence. }
    destruct (is_line_terminator c) eqn:Ec.
    + destruct (match_here re (c :: s)) as [caps'|] eqn:E; [|discriminate].
      intros [= <-]. apply Hback; auto.
    + destruct (match_here (DotStar :: re) s) as [caps0|] eqn:E0.
      * intros [= <-].
        destruct (IH _ eq_refl) as (g & caps' & t & -> & -> & Hg & Ht & Hmax).
        exists (c :: g), caps', t. cbn [extend app].
        repeat split; [by constructor|done|done].
      * destruct (match_here re (c :: s)) as [caps'|] eqn:E; [|discriminate].
        intros [= <-]. apply Hback; auto.
Qed.

Lemma occurrences_app_le x before s :
  occurrences x s ≤ occurrences x (before ++ s).
Proof. rewrite occurrences_app. lia. Qed.

Lemma exec_here_inv re s caps :
  exec re s = Some caps →
  ∃ before s', s = before ++ s' ∧ match_here re s' = Some caps.
Proof.
  induction s as [|c s IH]; cbn [exec].
  - destruct (match_here re []) eqn:E; [|discriminate].
    intros [= <-]. by exists [], [].
  - destruct (match_here re (c :: s)) eqn:E.
    + intros [= <-]. by exists [], (c :: s).
    + intros (before & s' & -> & Hm)%IH. by exists (c :: before), s'.
Qed.

Lemma free_of_no_split x l :
  (∀ l1 l2, l ≠ l1 ++ x :: l2) → free_of x l.
Proof.
  induction l as [|c l IH]; intros H; [constructor|]. constructor.
  - intros ->. by apply (H [] l).
  - apply IH. intros l1 l2 ->. by apply (H (c :: l1) l2).
Qed.

(** X6: a filename returned by [extractFilename] contains no [/] and no
    line terminator: the first group is greedy, so the name starts after
    the last [/] from which the pattern still matches. *)
Theorem extractFilename_name_has_no_slash (url f : string) :
  extractFilename url = Ok f →
  free_of "/" (chars f) ∧ no_line_terminator (chars f).
Proof.
  unfold extractFilename.
  destruct (exec GCS_URL_PATTERN (chars url)) as [caps|] eqn:E; [|discriminate].
  destruct (String.eqb (groups_filename caps) ""); [discriminate|].
  intros [= <-].
  apply exec_here_inv in E as (before & s' & _ & Hm).
  unfold GCS_URL_PATTERN in Hm.
  apply match_here_star_maximal in Hm
    as (g & caps' & t & -> & -> & Hg & Ht & Hmax).
  rewrite match_here_lit in Ht.
  destruct t as [|c t2]; [discriminate|].
  destruct (Ascii.eqb_spec "/" c) as [<-|]; [|discriminate].
  apply match_here_star_maximal in Ht
    as (fn & caps'' & t3 & -> & -> & Hfn & Ht3 & _).
  unfold groups_filename. cbn [nth]. rewrite chars_str.
  split; [|exact Hfn].
  apply free_of_no_split. intros f1 f2 ->.
  apply Forall_app in Hfn as [Hf1 Hf2]. apply Forall_cons in Hf2 as [_ Hf2].
  specialize (Hmax ("/" :: f1) ("/" :: f2 ++ t3)).
  rewrite match_here_lit, Ascii.eqb_refl in Hmax.
  destruct (match_here_star_complete _ f2 t3 Hf2 ltac:(by eexists)) as [y Hy].
  rewrite Hmax in Hy; [discriminate|done| |by constructor].
  cbn [app]. by rewrite <- app_assoc.
Qed.

(** [extractFilename_name_has_no_slash] on a concrete input. *)
Lemma extractFilename_name_has_no_slash_witness :
  free_of "/" (chars "report") ∧ no_line_terminator (chars "report").
Proof.
  apply (extractFilename_name_has_no_slash
           "gs://bucket/dir/report_2021_06_01_x.csv?sig=a/b"%string).
  vm_compute. reflexivity.
Defined.

Lemma extractFilename_few_literals (x : ascii) (url : string) :
  occurrences x (chars url) < literals x GCS_URL_PATTERN →
  extractFilename url = Throw "Unable to extract filename from URL.".
Proof.
  intros Hlt. unfold extractFilename.
  destruct (exec GCS_URL_PATTERN (chars url)) as [caps|] eqn:E; [|reflexivity].
  apply exec_sound in E as (before & s' & Hs & Hm).
  apply (matches_literals x) in Hm.
  pose proof (occurrences_app_le x before s') as Hle.
  rewrite <- Hs in Hle. lia.
Qed.

(** X7: [extractFilename] throws on every URL with fewer than four [_],
    or without any [/], [.] or [?]. *)
Theorem extractFilename_missing_literal (url : string) :
  occurrences "_" (chars url) < 4 ∨ occurrences "/" (chars url) = 0 ∨
  occurrences "." (chars url) = 0 ∨ occurrences "?" (chars url) = 0 →
  extractFilename url = Throw "Unable to extract filename from URL.".
Proof.
  intros [H|[H|[H|H]]].
  - by apply (extractFilename_few_literals "_").
  - apply (extractFilename_few_literals "/"). rewrite H. cbn. lia.
  - apply (extractFilename_few_literals "."). rewrite H. cbn. lia.
  - apply (extractFilename_few_literals "?"). rewrite H. cbn. lia.
Qed.

(** [extractFilename_missing_literal] on a concrete input. *)
Lemma extractFilename_missing_literal_witness :
  extractFilename "gs://bucket/report_2021_06.csv?sig=abc"
  = Throw "Unable to extract filename from URL.".
Proof.
  apply extractFilename_missing_literal. left. vm_compute. lia.
Defined.

(** ** Further facts: getReportName and getReports *)

Lemma first_available_first pre report post fileUrl :
  Forall (λ r, state (status (metadata r)) ≠ REPORT_AVAILABLE) pre →
  state (status (metadata report)) = REPORT_AVAILABLE →
  first_available (pre ++ report :: post) fileUrl
  = googleCloudStoragePath (metadata report).
Proof.
  intros Hpre Hr. induction Hpre as [|a pre Ha _ IH]; cbn [app first_available].
  - unfold is_available. rewrite Hr. reflexivity.
  - by rewrite (is_available_false _ Ha).
Qed.

(** X8: [getReportName] is [extractFilename] of the storage path of the
    first DONE report of the listing; the reports after it are not
    looked at. *)
Theorem getReportName_first_done (pre post : list Report) (report : Report) :
  Forall (λ r, state (status (metadata r)) ≠ REPORT_AVAILABLE) pre →
  state (status (metadata report)) = REPORT_AVAILABLE →
  getReportName (response_of (pre ++ report :: post))
  = extractFilename (googleCloudStoragePath (metadata report)).
Proof.
  intros Hpre Hr. unfold getReportName.
  rewrite listing_response_of by (by destruct pre).
  by rewrite first_available_first.
Qed.

(** [getReportName_first_done] on a concrete input. *)
Lemma getReportName_first_done_witness :
  getReportName
    (response_of
       ([mkReport "PROCESSING" 1622721600000 "" "p"]
        ++ mkReport "DONE" 1622635200000
             "gs://bucket/report_2021_06_02_x.csv?sig=abc" "f2"
           :: [mkReport "DONE" 1622548800000
                 "gs://bucket/older_2021_06_01_x.csv?sig=abc" "f1"]))
  = extractFilename "gs://bucket/report_2021_06_02_x.csv?sig=abc".
Proof.
  apply (getReportName_first_done
           [mkReport "PROCESSING" 1622721600000 "" "p"]).
  - repeat constructor; discriminate.
  - reflexivity.
Defined.

(** X10: when the first record of the listing is not DONE, [getReports]
    returns the empty map after that one record, whatever follows it, and
    leaves the required dates untouched. *)
Theorem getReports_head_not_done
    toFormat today lookbackDays dateFormat first rest requiredDates :
  state (status (metadata first)) ≠ REPORT_AVAILABLE →
  getReports toFormat today lookbackDays dateFormat
    (response_of (first :: rest)) requiredDates
  = Ok (∅, requiredDates) ∧
  getReports_scanned toFormat today lookbackDays dateFormat
    (response_of (first :: rest)) requiredDates = 1.
Proof.
  intros Hfirst. unfold getReports, getReports_scanned.
  rewrite listing_response_of by done.
  cbn [scan scanned]. rewrite (visit_skip toFormat dateFormat first _ Hfirst).
  rewrite stop_unfold. cbn. done.
Qed.

(** [getReports_head_not_done] on a concrete input. *)
Lemma getReports_head_not_done_witness :
  getReports isoDate 1622743200000 7 "yyyy-MM-dd"
    (response_of pending_then_done) {["2021-06-01"%string]}
  = Ok (∅, {["2021-06-01"%string]}) ∧
  getReports_scanned isoDate 1622743200000 7 "yyyy-MM-dd"
    (response_of pending_then_done) {["2021-06-01"%string]} = 1.
Proof.
  apply (getReports_head_not_done isoDate 1622743200000 7 "yyyy-MM-dd"
           (mkReport "PROCESSING" 1622635200000 "" "f2")).
  discriminate.
Defined.


(** The third [break] condition, for the record just visited. *)
Lemma stop_visit toFormat today lookbackDays dateFormat report st :
  is_available report = true →
  (stop today lookbackDays (visit toFormat dateFormat report st) = false
   ↔ in_window today lookbackDays report).
Proof.
  intros Ha. rewrite stop_unfold, visit_latestDate, Ha. unfold in_window.
  destruct (fromMillis _) as [ts|]; [|done].
  rewrite Z.ltb_ge. done.
Qed.

(** The loop stops at a DONE record whose data end before the window. *)
Lemma scan_cut toFormat today lookbackDays dateFormat pre report post st :
  state (status (metadata report)) = REPORT_AVAILABLE →
  ¬ in_window today lookbackDays report →
  scan toFormat today lookbackDays dateFormat (pre ++ report :: post) st
  = scan toFormat today lookbackDays dateFormat (pre ++ [report]) st ∧
  scanned toFormat today lookbackDays dateFormat (pre ++ report :: post) st
  ≤ S (length pre).
Proof.
  intros Hr Hout. revert st. induction pre as [|a pre IH]; intros st.
  - cbn [app scan scanned length].
    assert (Hstop : stop today lookbackDays
                      (visit toFormat dateFormat report st) = true).
    { apply not_false_iff_true. intros Hs. apply Hout.
      eapply stop_visit; [|exact Hs]. unfold is_available. by rewrite Hr. }
    by rewrite Hstop.
  - cbn [app scan scanned length].
    destruct (stop today lookbackDays (visit toFormat dateFormat a st));
      [split; [done|lia]|].
    destruct (IH (visit toFormat dateFormat a st)) as [-> ?]. split; [done|lia].
Qed.

(** X11: the scan ends at the first DONE record it reaches whose data end,
    at a valid instant, more than [lookbackDays] days before [today]: the
    records after it do not influence the result (the record itself is
    still matched).  A DONE record whose timestamp gives no valid
    [DateTime] never ends the scan. *)
Theorem getReports_stops_beyond_window
    toFormat today lookbackDays dateFormat pre report post requiredDates :
  state (status (metadata report)) = REPORT_AVAILABLE →
  ¬ in_window today lookbackDays report →
  getReports toFormat today lookbackDays dateFormat
    (response_of (pre ++ report :: post)) requiredDates
  = getReports toFormat today lookbackDays dateFormat
    (response_of (pre ++ [report])) requiredDates ∧
  getReports_scanned toFormat today lookbackDays dateFormat
    (response_of (pre ++ report :: post)) requiredDates
  ≤ S (length pre).
Proof.
  intros Hr Hout. unfold getReports, getReports_scanned.
  rewrite !listing_response_of by (by destruct pre).
  destruct (scan_cut toFormat today lookbackDays dateFormat pre report post
              (start requiredDates) Hr Hout) as [-> ?].
  done.
Qed.

(** [getReports_stops_beyond_window] on a concrete input. *)
Lemma getReports_stops_beyond_window_witness :
  getReports isoDate 1622743200000 1 "yyyy-MM-dd"
    (response_of
       ([mkReport "DONE" 1622721600000 "u3" "f3"]
        ++ mkReport "DONE" 1622635200000 "u2" "f2"
           :: [mkReport "DONE" 1622548800000 "u1" "f1"]))
    {["2021-06-01"%string]}
  = getReports isoDate 1622743200000 1 "yyyy-MM-dd"
    (response_of
       ([mkReport "DONE" 1622721600000 "u3" "f3"]
        ++ [mkReport "DONE" 1622635200000 "u2" "f2"]))
    {["2021-06-01"%string]}.
Proof.
  apply (getReports_stops_beyond_window isoDate 1622743200000 1 "yyyy-MM-dd"
           [mkReport "DONE" 1622721600000 "u3" "f3"]
           (mkReport "DONE" 1622635200000 "u2" "f2")).
  - reflexivity.
  - intros H. vm_compute in H. exact (H eq_refl).
Defined.

(** While the third [break] condition is false for every DONE record met,
    the loop goes on to the end of the listing. *)
Lemma scan_live toFormat today lookbackDays dateFormat l st :
  stop today lookbackDays st = false
  ∨ (∃ r l', l = r :: l' ∧ is_available r = true) →
  Forall (λ r, is_available r = true → in_window today lookbackDays r) l →
  st_requiredDates (scan toFormat today lookbackDays dateFormat l st)
  = st_requiredDates st ∖ done_dates toFormat dateFormat l ∧
  dom (st_reports (scan toFormat today lookbackDays dateFormat l st))
  = dom (st_reports st)
    ∪ (st_requiredDates st ∩ done_dates toFormat dateFormat l)
      ∖ {["__proto__"%string]} ∧
  scanned toFormat today lookbackDays dateFormat l st = length l.
Proof.
  intros Hlive Hall. revert st Hlive.
  induction Hall as [|r l Hr Hall IH]; intros st Hlive.
  - cbn. split; [set_solver|]. split; [set_solver|done].
  - cbn [scan scanned done_dates length].
    set (st1 := visit toFormat dateFormat r st).
    assert (Hstop : stop today lookbackDays st1 = false).
    { unfold st1. destruct (is_available r) eqn:Ha.
      - apply stop_visit; [done|]. by apply Hr.
      - unfold visit. rewrite Ha.
        destruct Hlive as [Hs|(r' & l' & [= <- <-] & Ha')]; [done|congruence]. }
    rewrite Hstop.
    destruct (IH st1 (or_introl Hstop)) as (Hreq & Hdom & Hn).
    rewrite Hreq, Hdom, Hn. clear IH Hreq Hdom Hn Hstop Hlive Hall Hr.
    unfold st1. clear st1.
    rewrite visit_reports, visit_requiredDates.
    destruct (is_available r) eqn:Ha;
      [|by rewrite decide_False by naive_solver].
    set (d := date_of toFormat dateFormat r).
    split; [set_solver|]. split; [|done].
    case_decide as Hc.
    + destruct Hc as (_ & Hd & Hne). rewrite dom_insert_L.
      apply set_eq. intros x. destruct (decide (x = d)); set_solver.
    + apply set_eq. intros x. destruct (decide (x = d)); [|set_solver].
      subst x. destruct (decide (d ∈ st_requiredDates st)); [|set_solver].
      destruct (decide (d = "__proto__"%string)); [set_solver|].
      destruct Hc. done.
Qed.

(** X12: when the first record is DONE and the third [break] condition is
    false for every DONE record of the listing, the loop inspects every
    record, the keys of the result are exactly the required dates other
    than [__proto__] that are dates of DONE records, and exactly the
    required dates that are dates of no DONE record are left in the
    set. *)
Theorem getReports_finds_all_in_window
    toFormat today lookbackDays dateFormat first rest requiredDates :
  state (status (metadata first)) = REPORT_AVAILABLE →
  Forall (λ r, state (status (metadata r)) = REPORT_AVAILABLE →
               in_window today lookbackDays r) (first :: rest) →
  ∃ result,
    getReports toFormat today lookbackDays dateFormat
      (response_of (first :: rest)) requiredDates
    = Ok (result,
          requiredDates ∖ done_dates toFormat dateFormat (first :: rest)) ∧
    dom result
    = (requiredDates ∩ done_dates toFormat dateFormat (first :: rest))
      ∖ {["__proto__"%string]} ∧
    getReports_scanned toFormat today lookbackDays dateFormat
      (response_of (first :: rest)) requiredDates
    = length (first :: rest).
Proof.
  intros Hfirst Hall. unfold getReports, getReports_scanned.
  rewrite listing_response_of by done.
  destruct (scan_live toFormat today lookbackDays dateFormat (first :: rest)
              (start requiredDates)) as (Hreq & Hdom & Hn).
  { right. exists first, rest. split; [done|].
    unfold is_available. by rewrite Hfirst. }
  { eapply Forall_impl; [exact Hall|]. intros r Hr Ha.
    by apply Hr, is_available_true. }
  eexists. split; [|split; [|exact Hn]].
  - cbn zeta. by rewrite Hreq.
  - rewrite Hdom. cbn. rewrite dom_empty_L. set_solver.
Qed.

(** [getReports_finds_all_in_window] on a concrete input. *)
Lemma getReports_finds_all_in_window_witness :
  ∃ result,
    getReports isoDate 1622743200000 7 "yyyy-MM-dd"
      (response_of three_done) {["2021-06-01"%string; "2021-05-20"%string]}
    = Ok (result,
          {["2021-06-01"%string; "2021-05-20"%string]}
          ∖ done_dates isoDate "yyyy-MM-dd" three_done) ∧
    dom result
    = ({["2021-06-01"%string; "2021-05-20"%string]}
       ∩ done_dates isoDate "yyyy-MM-dd" three_done)
      ∖ {["__proto__"%string]} ∧
    getReports_scanned isoDate 1622743200000 7 "yyyy-MM-dd"
      (response_of three_done) {["2021-06-01"%string; "2021-05-20"%string]}
    = length three_done.
Proof.
  apply (getReports_finds_all_in_window isoDate 1622743200000 7 "yyyy-MM-dd").
  - reflexivity.
  - repeat constructor; intros _; vm_compute; discriminate.
Defined.

(** What [visit] does to one key of the result. *)
Lemma visit_lookup toFormat dateFormat report st d :
  st_reports (visit toFormat dateFormat report st) !! d
  = if decide (is_available report = true ∧
               date_of toFormat dateFormat report = d ∧
               d ∈ st_requiredDates st ∧ d ≠ "__proto__"%string)
    then Some (entry_of report)
    else st_reports st !! d.
Proof.
  rewrite visit_reports. case_decide as Hc.
  - destruct Hc as (Ha & Hin & Hne). rewrite lookup_insert.
    case_decide as Heq.
    + subst d. by rewrite decide_True.
    + by rewrite decide_False by naive_solver.
  - case_decide as Hc'; [|done]. destruct Hc' as (? & <- & ? & ?).
    by destruct Hc.
Qed.

Lemma visit_required toFormat dateFormat report st :
  st_requiredDates (visit toFormat dateFormat report st)
  ⊆ st_requiredDates st.
Proof.
  rewrite visit_requiredDates. destruct (is_available report); set_solver.
Qed.

(** A date that is not required is never written. *)
Lemma scan_keeps toFormat today lookbackDays dateFormat l st d :
  d ∉ st_requiredDates st →
  st_reports (scan toFormat today lookbackDays dateFormat l st) !! d
  = st_reports st !! d.
Proof.
  revert st. induction l as [|r l IH]; intros st Hd; [done|].
  cbn [scan].
  assert (Hl : st_reports (visit toFormat dateFormat r st) !! d
               = st_reports st !! d).
  { rewrite visit_lookup. apply decide_False. by intros (_ & _ & ? & _). }
  destruct (stop _ _ _); [done|]. rewrite IH; [done|].
  intros Hin. by apply Hd, (visit_required toFormat dateFormat r st).
Qed.

Lemma visit_drops_date toFormat dateFormat report st :
  is_available report = true →
  date_of toFormat dateFormat report
  ∉ st_requiredDates (visit toFormat dateFormat report st).
Proof. intros Ha. rewrite visit_requiredDates, Ha. set_solver. Qed.

Lemma scan_first toFormat today lookbackDays dateFormat pre report post st e :
  Forall (λ r, state (status (metadata r)) = REPORT_AVAILABLE →
               date_of toFormat dateFormat r
               ≠ date_of toFormat dateFormat report) pre →
  state (status (metadata report)) = REPORT_AVAILABLE →
  st_reports st !! date_of toFormat dateFormat report = None →
  st_reports (scan toFormat today lookbackDays dateFormat
                (pre ++ report :: post) st)
    !! date_of toFormat dateFormat report = Some e →
  e = entry_of report.
Proof.
  intros Hpre Hr. revert st.
  assert (Ha : is_available report = true)
    by (unfold is_available; by rewrite Hr).
  induction Hpre as [|a pre Hne _ IH]; intros st Hnone; cbn [app scan].
  - assert (Hkeep : ∀ l,
              st_reports (scan toFormat today lookbackDays dateFormat l
                            (visit toFormat dateFormat report st))
                !! date_of toFormat dateFormat report
              = st_reports (visit toFormat dateFormat report st)
                  !! date_of toFormat dateFormat report).
    { intros l. apply scan_keeps. by apply visit_drops_date. }
    assert (Hv : st_reports (visit toFormat dateFormat report st)
                   !! date_of toFormat dateFormat report = Some e →
                 e = entry_of report).
    { rewrite visit_lookup. case_decide; [by intros [= <-]|congruence]. }
    destruct (stop _ _ _); [exact Hv|]. by rewrite Hkeep.
  - assert (Hv : st_reports (visit toFormat dateFormat a st)
                   !! date_of toFormat dateFormat report = None).
    { rewrite visit_lookup. rewrite decide_False; [done|].
      intros (Haa & Heq & _). by apply Hne; [apply is_available_true|]. }
    destruct (stop _ _ _); [congruence|]. by apply IH.
Qed.

(** X13: when several DONE records have the same date key, the entry
    stored under it is that of the first of them in the listing. *)
Theorem getReports_first_of_a_date_wins
    toFormat today lookbackDays dateFormat pre report post requiredDates
    result remaining e :
  Forall (λ r, state (status (metadata r)) = REPORT_AVAILABLE →
               date_of toFormat dateFormat r
               ≠ date_of toFormat dateFormat report) pre →
  state (status (metadata report)) = REPORT_AVAILABLE →
  getReports toFormat today lookbackDays dateFormat
    (response_of (pre ++ report :: post)) requiredDates
  = Ok (result, remaining) →
  result !! date_of toFormat dateFormat report = Some e →
  e = entry_of report.
Proof.
  intros Hpre Hr (l & Hl & -> & _)%getReports_Ok.
  rewrite listing_response_of in Hl by (by destruct pre).
  injection Hl as <-. apply scan_first; done.
Qed.

(** [getReports_first_of_a_date_wins] on a concrete input. *)
Lemma getReports_first_of_a_date_wins_witness :
  {| url := "new"; file := "f2" |}
  = entry_of (mkReport "DONE" 1622635200000 "new" "f2").
Proof.
  apply (getReports_first_of_a_date_wins isoDate 1622743200000 7 "yyyy-MM-dd"
           [mkReport "DONE" 1622721600000 "u3" "f3"]
           (mkReport "DONE" 1622635200000 "new" "f2")
           [mkReport "DONE" 1622635100000 "old" "f1"]
           {["2021-06-02"%string]}
           {["2021-06-02"%string := {| url := "new"; file := "f2" |}]} ∅).
  - repeat constructor. intros _. vm_compute. discriminate.
  - reflexivity.
  - vm_compute. reflexivity.
  - vm_compute. reflexivity.
Defined.

(** With a larger window the loop removes at least the same dates. *)
Lemma scan_shrinks toFormat today lookbackDays dateFormat l st :
  st_requiredDates (scan toFormat today lookbackDays dateFormat l st)
  ⊆ st_requiredDates st.
Proof.
  revert st. induction l as [|r l IH]; intros st; [done|]. cbn [scan].
  pose proof (visit_required toFormat dateFormat r st).
  destruct (stop _ _ _); [done|]. etrans; [apply IH|done].
Qed.

Lemma scan_mono_required toFormat today dateFormat lookback1 lookback2 l st :
  (lookback1 ≤ lookback2)%Z →
  st_requiredDates (scan toFormat today lookback2 dateFormat l st)
  ⊆ st_requiredDates (scan toFormat today lookback1 dateFormat l st).
Proof.
  intros Hle. revert st. induction l as [|r l IH]; intros st; [done|].
  cbn [scan]. destruct (stop today lookback2 _) eqn:E2.
  - by rewrite (stop_mono _ _ _ _ Hle E2).
  - destruct (stop today lookback1 _); [apply scan_shrinks|apply IH].
Qed.

(** X14: with a larger lookback window the set of dates left unresolved
    can only shrink; setting [__proto__] aside, it shrinks by exactly the
    keys the result gains, and by exactly those keys when [__proto__] is
    not a required date. *)
Theorem getReports_remaining_antitone
    toFormat today dateFormat lookback1 lookback2 response requiredDates
    result1 remaining1 result2 remaining2 :
  (lookback1 ≤ lookback2)%Z →
  getReports toFormat today lookback1 dateFormat response requiredDates
  = Ok (result1, remaining1) →
  getReports toFormat today lookback2 dateFormat response requiredDates
  = Ok (result2, remaining2) →
  remaining2 ⊆ remaining1 ∧
  (remaining1 ∖ remaining2) ∖ {["__proto__"%string]}
  = dom result2 ∖ dom result1 ∧
  ("__proto__"%string ∉ requiredDates →
   remaining1 ∖ remaining2 = dom result2 ∖ dom result1).
Proof.
  intros Hle (l & Hl & -> & ->)%getReports_Ok
    (l' & Hl' & -> & ->)%getReports_Ok.
  assert (l' = l) as -> by congruence.
  pose proof (scan_mono_required toFormat today dateFormat lookback1
                lookback2 l (start requiredDates) Hle) as Hsub.
  set (st1 := scan toFormat today lookback1 dateFormat l (start requiredDates))
    in *.
  set (st2 := scan toFormat today lookback2 dateFormat l (start requiredDates))
    in *.
  assert (Hf1 : found_in toFormat dateFormat requiredDates l st1)
    by (apply scan_found_in; [reflexivity|apply start_found_in]).
  assert (Hf2 : found_in toFormat dateFormat requiredDates l st2)
    by (apply scan_found_in; [reflexivity|apply start_found_in]).
  destruct Hf1 as (Hr1 & Hd1 & _), Hf2 as (Hr2 & Hd2 & _).
  clearbody st1 st2. rewrite Hd1, Hd2. clear Hl Hl' Hd1 Hd2.
  assert (Heq : (st_requiredDates st1 ∖ st_requiredDates st2)
                ∖ {["__proto__"%string]}
                = (requiredDates ∖ st_requiredDates st2)
                    ∖ {["__proto__"%string]}
                  ∖ ((requiredDates ∖ st_requiredDates st1)
                       ∖ {["__proto__"%string]})).
  { apply set_eq. intros x.
    destruct (decide (x ∈ st_requiredDates st1)); set_solver. }
  split; [exact Hsub|]. split; [exact Heq|].
  intros Hno. rewrite <- Heq. set_solver.
Qed.

(** [getReports_remaining_antitone] on a concrete input. *)
Lemma getReports_remaining_antitone_witness :
  (∅ : gset string) ⊆ {["2021-06-01"%string]} ∧
  ({["2021-06-01"%string]} : gset string) ∖ ∅
  = dom ({["2021-06-01"%string := {| url := "u1"; file := "f1" |}]}
         : gmap string Entry) ∖ dom (∅ : gmap string Entry).
Proof.
  destruct (getReports_remaining_antitone isoDate 1622743200000 "yyyy-MM-dd"
              0 7 (response_of three_done) {["2021-06-01"%string]}
              ∅ {["2021-06-01"%string]}
              {["2021-06-01"%string := {| url := "u1"; file := "f1" |}]} ∅)
    as (Hsub & _ & Hexact).
  - lia.
  - vm_compute. reflexivity.
  - vm_compute. reflexivity.
  - split; [exact Hsub|]. apply Hexact. set_solver.
Defined.

(** ** Further facts: CSVExtractor *)

Lemma transform_first c0 :
  _transform constructor c0
  = ({| csvFound := true; summaryFound := false |},
     [HandleFields (split "," c0)]).
Proof. reflexivity. Qed.

Lemma transform_line c :
  is_summary_marker c = false →
  _transform {| csvFound := true; summaryFound := false |} c
  = ({| csvFound := true; summaryFound := false |},
     [PushLine (convertDate c)]).
Proof. intros H. unfold _transform. cbn [csvFound]. by rewrite H. Qed.

Lemma transform_marker c :
  is_summary_marker c = true →
  _transform {| csvFound := true; summaryFound := false |} c
  = ({| csvFound := false; summaryFound := true |}, []).
Proof. intros H. unfold _transform. cbn [csvFound]. by rewrite H. Qed.

Lemma feed_data_lines data :
  Forall (λ c, is_summary_marker c = false) data →
  feed {| csvFound := true; summaryFound := false |} data
  = ({| csvFound := true; summaryFound := false |},
     map (λ c, PushLine (convertDate c)) data).
Proof.
  induction 1 as [|c data Hc _ IH]; [reflexivity|].
  rewrite feed_cons, (transform_line _ Hc). cbn [fst snd]. by rewrite IH.
Qed.

Lemma feed_after_summary post :
  feed {| csvFound := false; summaryFound := true |} post
  = ({| csvFound := false; summaryFound := true |},
     replicate (length post) PushNull).
Proof.
  induction post as [|c post IH]; [reflexivity|].
  rewrite feed_cons. cbn [_transform csvFound summaryFound fst snd].
  by rewrite IH.
Qed.

(** X15: the whole output of the extractor: the field names of the first
    chunk, then one converted data line per chunk up to the first chunk
    that is empty or begins with a comma, nothing for that chunk, and one
    end-of-stream signal for every chunk after it. *)
Theorem CSVExtractor_output (c0 : string) (data : list string) :
  Forall (λ c, is_summary_marker c = false) data →
  feed constructor (c0 :: data)
  = ({| csvFound := true; summaryFound := false |},
     HandleFields (split "," c0)
     :: map (λ c, PushLine (convertDate c)) data) ∧
  ∀ marker post,
    is_summary_marker marker = true →
    feed constructor (c0 :: data ++ marker :: post)
    = ({| csvFound := false; summaryFound := true |},
       HandleFields (split "," c0)
       :: map (λ c, PushLine (convertDate c)) data
       ++ replicate (length post) PushNull).
Proof.
  intros Hdata. split.
  - rewrite feed_cons, transform_first. cbn [fst snd].
    by rewrite (feed_data_lines _ Hdata).
  - intros marker post Hm.
    rewrite feed_cons, transform_first. cbn [fst snd].
    rewrite feed_app, (feed_data_lines _ Hdata). cbn [fst snd].
    rewrite feed_cons, (transform_marker _ Hm). cbn [fst snd].
    by rewrite feed_after_summary.
Qed.

(** [CSVExtractor_output] on a concrete input. *)
Lemma CSVExtractor_output_witness :
  feed constructor
    ("h,i" :: ["a,1"; "b,2021/06/01"] ++ ",,3" :: ["x"; "y"])%string
  = ({| csvFound := false; summaryFound := true |},
     HandleFields (split "," "h,i")
     :: map (λ c, PushLine (convertDate c)) ["a,1"; "b,2021/06/01"]%string
     ++ replicate (length ["x"; "y"]%string) PushNull).
Proof.
  apply (proj2 (CSVExtractor_output "h,i" ["a,1"; "b,2021/06/01"]%string
                  ltac:(repeat constructor))).
  reflexivity.
Defined.

(** X16: [csvFound] and [summaryFound] are never both set: after any
    non-empty chunk sequence exactly one of them is. *)
Theorem CSVExtractor_flags (chunks : list string) :
  let this := fst (feed constructor chunks) in
  (chunks = [] ∧ this = constructor) ∨
  (chunks ≠ [] ∧
   (this = {| csvFound := true; summaryFound := false |} ∨
    this = {| csvFound := false; summaryFound := true |})).
Proof.
  cbn zeta. destruct chunks as [|c0 cs]; [by left|]. right. split; [done|].
  rewrite feed_cons, transform_first. cbn [fst].
  generalize cs. clear. intros cs.
  assert (H : ∀ this,
            this = {| csvFound := true; summaryFound := false |} ∨
            this = {| csvFound := false; summaryFound := true |} →
            fst (feed this cs)
            = {| csvFound := true; summaryFound := false |} ∨
            fst (feed this cs)
            = {| csvFound := false; summaryFound := true |}).
  { induction cs as [|c cs IH]; intros this Hthis; [exact Hthis|].
    rewrite feed_cons. cbn [fst]. apply IH.
    destruct Hthis as [-> | ->]; unfold _transform; cbn [csvFound summaryFound].
    - destruct (is_summary_marker c); cbn [fst]; auto.
    - cbn [fst]. auto. }
  apply H. by left.
Qed.
